(** * batch-CURLer: the occupation updater and the comment adder

    A shallow embedding of [update_occupation.py] and [add_comment.py].
    Both scripts load a configuration file and a CSV table, issue one HTTP
    request per row and write the failures to an error log.  Python values
    are kept dynamically typed ([pyval]); exceptions are values of an error
    monad; the console, the error log and the network are a trace of events
    threaded through the calls. *)

From Stdlib Require Import String Ascii.
From Stdlib Require Import List Bool Arith ZArith NArith Lia.
From Stdlib Require Import Floats.SpecFloat DecimalString.
Import ListNotations.

#[local] Set Warnings "-register-all".
#[local] Open Scope string_scope.
#[local] Open Scope list_scope.
#[local] Open Scope nat_scope.

(** ** Text *)

(** A Python [str] is a sequence of Unicode code points; [len] counts them. *)
Definition codepoint := N.
Definition pystr := list codepoint.

(** ASCII literals of the scripts, written as Rocq strings. *)
Definition lit (s : string) : pystr := map N_of_ascii (list_ascii_of_string s).
Arguments lit : simpl never.

Definition pystr_eqb (a b : pystr) : bool :=
  if list_eq_dec N.eq_dec a b then true else false.

Fixpoint starts_with (p s : pystr) : bool :=
  match p, s with
  | [], _ => true
  | _ :: _, [] => false
  | a :: p', b :: s' => (a =? b)%N && starts_with p' s'
  end.

(** [sub in s] on two strings: [sub] occurs somewhere in [s]. *)
Fixpoint str_contains (sub s : pystr) : bool :=
  starts_with sub s ||
  match s with
  | [] => false
  | _ :: s' => str_contains sub s'
  end.

Definition zero_char : codepoint := 48%N.
Definition is_sign (c : codepoint) : bool := ((c =? 43) || (c =? 45))%N.
Definition ascii_digit (c : codepoint) : bool := ((48 <=? c) && (c <=? 57))%N.

(** ** Values *)

(** What the scripts handle at run time: cells of the table, the decoded
    JSON of a response, the payload of a request.  A [dict] keeps its items
    in insertion order, as Python does; a key is looked up at its first
    binding. *)
Inductive pyval : Type :=
| PNone
| PBool (b : bool)
| PInt (z : Z)
| PFloat (f : spec_float)
| PStr (s : pystr)
| PList (l : list pyval)
| PDict (d : list (pystr * pyval)).

Definition assoc {V : Type} (k : pystr) (l : list (pystr * V)) : option V :=
  match find (fun kv => pystr_eqb (fst kv) k) l with
  | Some kv => Some (snd kv)
  | None => None
  end.

Definition type_name (v : pyval) : pystr :=
  match v with
  | PNone => lit "NoneType"
  | PBool _ => lit "bool"
  | PInt _ => lit "int"
  | PFloat _ => lit "float"
  | PStr _ => lit "str"
  | PList _ => lit "list"
  | PDict _ => lit "dict"
  end.

(** Truth value of an object in a condition. *)
Definition py_truthy (v : pyval) : bool :=
  match v with
  | PNone => false
  | PBool b => b
  | PInt z => negb (z =? 0)%Z
  | PFloat (S754_zero _) => false
  | PFloat _ => true
  | PStr s => negb (Nat.eqb (length s) 0)
  | PList l => negb (Nat.eqb (length l) 0)
  | PDict d => negb (Nat.eqb (length d) 0)
  end.

(** [v == s] for a string literal [s]: only an equal string is equal to it. *)
Definition py_eq_str (v : pyval) (s : pystr) : bool :=
  match v with
  | PStr t => pystr_eqb t s
  | _ => false
  end.

(** What the interpreter provides and the scripts only call: the Unicode
    table behind [str.isdigit] and the text of a value ([str], [format] and
    the fields of an f-string).  On ASCII the digits are '0'..'9'; the text
    of a string is the string. *)
Class PyRuntime : Type := {
  chr_isdigit : codepoint -> bool;
  chr_isdigit_ascii : forall c, (c < 128)%N -> chr_isdigit c = ascii_digit c;
  py_str : pyval -> pystr;
  py_str_text : forall s, py_str (PStr s) = s
}.

(** ** Exceptions *)

Variant exn_class : Set :=
| Exception_
| ValueError
| TypeError
| AttributeError
| KeyError
| FileNotFoundError
| ConfigParserError     (* configparser.Error and its subclasses *)
| ParserError           (* pandas.errors.ParserError, a ValueError *)
| RequestException      (* requests.exceptions.RequestException: ConnectionError, Timeout, ... *)
| HTTPError             (* requests.exceptions.HTTPError *)
| JSONDecodeError.      (* requests.exceptions.JSONDecodeError: a RequestException and a ValueError *)

Record exn : Type := { exn_cls : exn_class; exn_text : pystr }.

Definition exn_class_eqb (a b : exn_class) : bool :=
  match a, b with
  | Exception_, Exception_ | ValueError, ValueError | TypeError, TypeError
  | AttributeError, AttributeError | KeyError, KeyError
  | FileNotFoundError, FileNotFoundError | ConfigParserError, ConfigParserError
  | ParserError, ParserError | RequestException, RequestException
  | HTTPError, HTTPError | JSONDecodeError, JSONDecodeError => true
  | _, _ => false
  end.

(** [catches h c]: a clause [except h] handles an exception of class [c]. *)
Definition catches (handler raised : exn_class) : bool :=
  match handler, raised with
  | Exception_, _ => true
  | ValueError, (ParserError | JSONDecodeError) => true
  | RequestException, (HTTPError | JSONDecodeError) => true
  | _, _ => exn_class_eqb handler raised
  end.

(** How a call ends: with a value, or with a raised exception. *)
Variant completion (A : Type) : Type :=
| Ok (a : A)
| Raise (e : exn).
Arguments Ok {A} a.
Arguments Raise {A} e.

Definition throw {A : Type} (c : exn_class) (text : pystr) : completion A :=
  Raise {| exn_cls := c; exn_text := text |}.

(** [item in container], for a string [item]. *)
Definition py_contains (item : pystr) (container : pyval) : completion bool :=
  match container with
  | PDict d => Ok (match assoc item d with Some _ => true | None => false end)
  | PList l => Ok (existsb (fun v => py_eq_str v item) l)
  | PStr s => Ok (str_contains item s)
  | v => throw TypeError
           (lit "argument of type '" ++ type_name v ++ lit "' is not iterable")
  end.

(** [container[key]], for a string [key]. *)
Definition py_getitem (container : pyval) (key : pystr) : completion pyval :=
  match container with
  | PDict d =>
      match assoc key d with
      | Some v => Ok v
      | None => throw KeyError (lit "'" ++ key ++ lit "'")
      end
  | PList _ => throw TypeError (lit "list indices must be integers or slices, not str")
  | PStr _ => throw TypeError (lit "string indices must be integers, not 'str'")
  | v => throw TypeError (lit "'" ++ type_name v ++ lit "' object is not subscriptable")
  end.

(** [d.get(key, default)] on a dict. *)
Definition dict_get (d : list (pystr * pyval)) (key : pystr) (default : pyval) : pyval :=
  match assoc key d with
  | Some v => v
  | None => default
  end.

(** ** String methods the updater calls *)

Section StrMethods.
Context {rt : PyRuntime}.

(** [s.isdigit()]: at least one character, and every character a digit. *)
Definition str_isdigit (s : pystr) : bool :=
  negb (Nat.eqb (length s) 0) && forallb chr_isdigit s.

(** [s.zfill(width)]: zeros on the left up to [width], after a leading sign. *)
Definition str_zfill (s : pystr) (width : nat) : pystr :=
  if width <=? length s then s
  else
    let fill := repeat zero_char (width - length s) in
    match s with
    | c :: rest => if is_sign c then c :: fill ++ rest else fill ++ s
    | [] => fill
    end.

(** update_occupation.py, lines 155-156, on the text of the cell. *)
Definition pad_occupation_key (s : pystr) : pystr :=
  if str_isdigit s && (length s <? 3) then str_zfill s 3 else s.

(** Lines 153-156: the cell is used as a [str]; any other object has no
    [isdigit] method. *)
Definition occupation_value (cell : pyval) : completion pyval :=
  match cell with
  | PStr s => Ok (PStr (pad_occupation_key s))
  | v => throw AttributeError
           (lit "'" ++ type_name v ++ lit "' object has no attribute 'isdigit'")
  end.
End StrMethods.

(** ** The world of a run *)

(** One row of [source/2025_occupation_fix.csv], by column. *)
Record row : Type := {
  applican_id : pyval;               (* 'Applican ID' *)
  institution : pyval;               (* 'Institution' *)
  expected_employment_key : pyval;   (* 'Expected employment key' *)
  expected_occupation_key : pyval    (* 'Expected occupation key' *)
}.

Variant http_method : Set := PUT | POST.

Record request : Type := {
  req_method : http_method;
  req_url : pystr;
  req_headers : list (pystr * pystr);
  req_json : pyval
}.

(** What [response.json()] finds in the body. *)
Variant body_json : Type :=
| Json (v : pyval)
| NotJson (why : pystr).

Record response : Type := {
  status_code : Z;
  reason : pystr;
  url : pystr;
  text : pystr;
  decoded : body_json
}.

(** What [requests.put] / [requests.post] comes back with. *)
Variant http_outcome : Type :=
| Responded (r : response)
| TransportError (why : pystr).

Variant file_content (A : Type) : Type :=
| Absent
| Malformed (why : pystr)
| Parsed (a : A).
Arguments Absent {A}.
Arguments Malformed {A} why.
Arguments Parsed {A} a.

(** What [config[section][key]] gives for a key the parser holds: the
    value after interpolation, or the [InterpolationError] (a
    [configparser.Error]) that reading it raises, as for a value with a
    bare '%'. *)
Variant key_reading : Type :=
| Value (text : pystr)
| BadValue (why : pystr).

(** A parsed INI file as the parser shows it to the script: the sections,
    each with the keys [key in config[section]] finds, and for each key
    what reading it gives. *)
Definition ini := list (pystr * list (pystr * key_reading)).

(** Everything a run reads from outside.  The server answers the [n]-th
    request of the run, so the same request may be answered differently
    at different times. *)
Record world : Type := {
  config_file : file_content ini;       (* properties/config.properties *)
  csv_file : file_content (list row);   (* source/2025_occupation_fix.csv *)
  server : nat -> request -> http_outcome;
  now : pystr                           (* strftime("%Y%m%d_%H%M%S") at start-up *)
}.

(** What a run does to the outside, in order.  A [LogError] is one line
    [<asctime> - ERROR - <text>] appended to the error log file. *)
Variant event : Type :=
| LogOpened (filename : pystr)
| Print (text : pystr)
| LogError (text : pystr)
| Http (r : request).

Definition http_requests (tr : list event) : list request :=
  flat_map (fun e => match e with Http r => [r] | _ => [] end) tr.
Definition log_lines (tr : list event) : list pystr :=
  flat_map (fun e => match e with LogError t => [t] | _ => [] end) tr.
Definition printed (tr : list event) : list pystr :=
  flat_map (fun e => match e with Print t => [t] | _ => [] end) tr.

(** ** Effects: a state and exception monad over the trace *)

Definition M (A : Type) : Type := world -> list event -> completion A * list event.

Definition ret {A : Type} (a : A) : M A := fun _ tr => (Ok a, tr).

Definition bind {A B : Type} (m : M A) (k : A -> M B) : M B :=
  fun w tr =>
    match m w tr with
    | (Ok a, tr') => k a w tr'
    | (Raise e, tr') => (Raise e, tr')
    end.

Definition lift {A : Type} (c : completion A) : M A := fun _ tr => (c, tr).

Definition raise {A : Type} (c : exn_class) (text : pystr) : M A := lift (throw c text).

Definition emit (e : event) : M unit := fun _ tr => (Ok tt, tr ++ [e]).

Definition ask : M world := fun w tr => (Ok w, tr).

(** [try: body except c1 as e: h1 except c2 as e: h2 ...]: the first clause
    that handles the exception runs; what it raises is not caught here. *)
Definition try_except {A : Type} (body : M A)
    (clauses : list (exn_class * (exn -> M A))) : M A :=
  fun w tr =>
    match body w tr with
    | (Ok a, tr') => (Ok a, tr')
    | (Raise e, tr') =>
        match find (fun cl => catches (fst cl) (exn_cls e)) clauses with
        | Some cl => snd cl e w tr'
        | None => (Raise e, tr')
        end
    end.

Declare Scope py_scope.
Delimit Scope py_scope with py.
Notation "x <- m ;; k" := (bind m (fun x => k))
  (at level 61, m at next level, right associativity) : py_scope.
Notation "m ;; k" := (bind m (fun _ => k))
  (at level 61, right associativity) : py_scope.
#[local] Open Scope py_scope.

(** [for x in xs: body]. *)
Fixpoint for_each {A : Type} (xs : list A) (body : A -> M unit) : M unit :=
  match xs with
  | [] => ret tt
  | x :: xs' => body x ;; for_each xs' body
  end.

Definition print (text : pystr) : M unit := emit (Print text).
Definition logging_error (text : pystr) : M unit := emit (LogError text).

(** [requests.request(method, url, headers=..., json=...)]: one attempt. *)
Definition requests_send (r : request) : M response :=
  fun w tr =>
    match server w (length (http_requests tr)) r with
    | Responded resp => (Ok resp, tr ++ [Http r])
    | TransportError why => (throw RequestException why, tr ++ [Http r])
    end.

(** [response.json()]. *)
Definition response_json (resp : response) : completion pyval :=
  match decoded resp with
  | Json v => Ok v
  | NotJson why => throw JSONDecodeError why
  end.

(** ** What the two scripts share *)

(** The dictionary [read_config] returns. *)
Record configuration : Type := { jwt_token : pystr; api_base_url : pystr }.

Definition config_file_path : pystr := lit "properties/config.properties".

(** [config = configparser.ConfigParser(); config.read(path)]: [read]
    skips a file it cannot open and leaves the parser empty; a file it can
    open and cannot parse raises a [configparser.Error]. *)
Definition ConfigParser_read : M ini :=
  w <- ask ;;
  match config_file w with
  | Absent => ret []
  | Malformed why => raise ConfigParserError why
  | Parsed c => ret c
  end.

(** Lines 15-39 of either script: the body of the [try]. *)
Definition read_config_body : M configuration :=
  config <- ConfigParser_read ;;
  match assoc (lit "Authorization") config with
  | None => raise ValueError (lit "Authorization section not found in config file")
  | Some authorization =>
      match assoc (lit "jwt_token") authorization with
      | None => raise ValueError (lit "jwt_token key not found in Authorization section")
      | Some (BadValue why) => raise ConfigParserError why
      | Some (Value token) =>
          match assoc (lit "API") config with
          | None => raise ValueError (lit "API section not found in config file")
          | Some api =>
              match assoc (lit "base_url") api with
              | None => raise ValueError (lit "base_url key not found in API section")
              | Some (BadValue why) => raise ConfigParserError why
              | Some (Value base) => ret {| jwt_token := token; api_base_url := base |}
              end
          end
      end
  end.

(** [read_config], lines 10-43 of either script (the two texts are the same). *)
Definition read_config : M configuration :=
  try_except read_config_body
    [ (FileNotFoundError,
       fun _ => raise FileNotFoundError (lit "Config file not found at " ++ config_file_path));
      (Exception_,
       fun e => raise Exception_ (lit "Error reading configuration: " ++ exn_text e)) ].

(** [pd.read_csv(csv_path, ...)] inside [read_csv_data]; the rows are the
    table as the running script's [read_csv] types it. *)
Definition read_csv_data : M (list row) :=
  try_except
    (w <- ask ;;
     match csv_file w with
     | Absent =>
         raise FileNotFoundError
           (lit "[Errno 2] No such file or directory: 'source/2025_occupation_fix.csv'")
     | Malformed why => raise ParserError why
     | Parsed rows => ret rows
     end)
    [ (Exception_, fun e => raise Exception_ (lit "Error reading CSV file: " ++ exn_text e)) ].

(** The test of success, the same in both [main]s:
    [result and ('code' in result and result['code'] == '0')]. *)
Definition result_is_success (result : pyval) : completion bool :=
  if py_truthy result then
    match py_contains (lit "code") result with
    | Raise e => Raise e
    | Ok false => Ok false
    | Ok true =>
        match py_getitem result (lit "code") with
        | Raise e => Raise e
        | Ok code => Ok (py_eq_str code (lit "0"))
        end
    end
  else Ok false.

Section Details.
Context {rt : PyRuntime}.

(** [error_details] of the failure branch, the same in both [main]s. *)
Definition error_details (result : pyval) : pystr :=
  match result with
  | PDict d =>
      match assoc (lit "code") d with
      | Some code =>
          if negb (py_eq_str code (lit "0")) then
            lit " - Error code: " ++ py_str code
            ++ lit ", Description: " ++ py_str (dict_get d (lit "desc") (PStr (lit "Unknown error")))
            ++ lit ", Data: " ++ py_str (dict_get d (lit "data") (PStr (lit "Unknown data")))
          else []
      | None => []
      end
  | _ => []
  end.

(** [response.raise_for_status()]: an [HTTPError] for a 4xx or 5xx status. *)
Definition raise_for_status (resp : response) : completion unit :=
  let status := status_code resp in
  if ((400 <=? status) && (status <? 500))%Z then
    throw HTTPError (py_str (PInt status) ++ lit " Client Error: " ++ reason resp
                     ++ lit " for url: " ++ url resp)
  else if ((500 <=? status) && (status <? 600))%Z then
    throw HTTPError (py_str (PInt status) ++ lit " Server Error: " ++ reason resp
                     ++ lit " for url: " ++ url resp)
  else Ok tt.
End Details.

(** The [headers] dictionary of [update_occupation] and of [add_comment]. *)
Definition headers (token : pystr) : list (pystr * pystr) :=
  [ (lit "Authorization", token); (lit "Content-Type", lit "application/json") ].

(** ** update_occupation.py *)

Module UpdateOccupation.
Section Script.
Context {rt : PyRuntime}.

(** [API_ENDPOINT.format(applicant_id=applicant_id)]. *)
Definition API_ENDPOINT (applicant_id : pyval) : pystr :=
  lit "/cms/v2/applicants/" ++ py_str applicant_id ++ lit "/occupation".

(** The dictionary returned when the body is not JSON (lines 76-80). *)
Definition not_json_result (resp : response) : pyval :=
  PDict [ (lit "success", PBool false);
          (lit "error_code", PInt (status_code resp));
          (lit "error_message", PStr (text resp)) ].

(** The dictionary returned on a [RequestException] (lines 84-88). *)
Definition request_exception_result (error_message : pystr) : pyval :=
  PDict [ (lit "success", PBool false);
          (lit "error_code", PStr (lit "RequestException"));
          (lit "error_message", PStr error_message) ].

Definition update_occupation (applicant_id data : pyval)
    (jwt_token api_base_url : pystr) : M pyval :=
  let url := api_base_url ++ API_ENDPOINT applicant_id in
  try_except
    (response <- requests_send {| req_method := PUT; req_url := url;
                                  req_headers := headers jwt_token;
                                  req_json := data |} ;;
     try_except (lift (response_json response))
       [ (ValueError, fun _ => ret (not_json_result response)) ])
    [ (RequestException,
       fun e =>
         let error_message := exn_text e in
         print (lit "Error updating occupation for applicant " ++ py_str applicant_id
                ++ lit ": " ++ error_message) ;;
         ret (request_exception_result error_message)) ].

Definition setup_logging : M pystr :=
  w <- ask ;;
  let log_filename := lit "log/occupation_update_errors_" ++ now w ++ lit ".log" in
  emit (LogOpened log_filename) ;;
  ret log_filename.

Definition log_success (applicant_id : pyval) (message : option pystr) : M pystr :=
  let message :=
    match message with
    | Some m => m
    | None => lit "Successfully updated occupation for applicant " ++ py_str applicant_id
    end in
  print message ;;
  ret message.

Definition log_failure (applicant_id : pyval) (message : option pystr) : M pystr :=
  let message :=
    match message with
    | Some m => m
    | None => lit "Failed to update occupation for applicant " ++ py_str applicant_id
    end in
  print message ;;
  logging_error message ;;
  ret message.

Definition log_error (error_message : pystr) : M unit :=
  print error_message ;;
  logging_error error_message.

(** The payload built for a row (lines 158-163). *)
Definition data (r : row) (occupation : pyval) : pyval :=
  PDict [ (lit "employment_key", expected_employment_key r);
          (lit "occupation_key", occupation);
          (lit "is_public_politician", PBool false);
          (lit "is_criminal_investigation", PBool false) ].

(** The body of the loop of [main] (lines 149-181). *)
Definition process_row (jwt_token api_base_url : pystr) (r : row) : M unit :=
  let applicant_id := applican_id r in
  occupation <- lift (occupation_value (expected_occupation_key r)) ;;
  print (py_str (data r occupation)) ;;
  result <- update_occupation applicant_id (data r occupation) jwt_token api_base_url ;;
  success <- lift (result_is_success result) ;;
  if success : bool then
    log_success applicant_id None ;; ret tt
  else
    log_failure applicant_id
      (Some (lit "Failed to update occupation for applicant " ++ py_str applicant_id
             ++ error_details result)) ;;
    ret tt.

Definition main : M unit :=
  try_except
    (log_filename <- setup_logging ;;
     config <- read_config ;;
     df <- read_csv_data ;;
     for_each df (process_row (jwt_token config) (api_base_url config)) ;;
     print (lit "Process completed. Log file for errors: " ++ log_filename))
    [ (Exception_, fun e => log_error (lit "Error in main process: " ++ exn_text e)) ].
End Script.
End UpdateOccupation.

(** ** add_comment.py *)

Module AddComment.
Section Script.
Context {rt : PyRuntime}.

(** [COMMENT_API_ENDPOINT.format(applicant_id=..., institution_key=...)]. *)
Definition COMMENT_API_ENDPOINT (applicant_id institution_key : pyval) : pystr :=
  lit "/cms/v2/applicants/" ++ py_str applicant_id ++ lit "/institutions/"
  ++ py_str institution_key ++ lit "/comment".

Definition add_comment (applicant_id institution_key comment_data : pyval)
    (jwt_token api_base_url : pystr) : M pyval :=
  let url := api_base_url ++ COMMENT_API_ENDPOINT applicant_id institution_key in
  try_except
    (response <- requests_send {| req_method := POST; req_url := url;
                                  req_headers := headers jwt_token;
                                  req_json := comment_data |} ;;
     lift (raise_for_status response) ;;
     lift (response_json response))
    [ (RequestException,
       fun e =>
         print (lit "Error adding comment for applicant " ++ py_str applicant_id
                ++ lit ", institution " ++ py_str institution_key
                ++ lit ": " ++ exn_text e) ;;
         ret PNone) ].

Definition setup_logging : M pystr :=
  w <- ask ;;
  let log_filename := lit "log/add_comment_errors_" ++ now w ++ lit ".log" in
  emit (LogOpened log_filename) ;;
  ret log_filename.

Definition log_success (applicant_id : pyval) (message : option pystr) : M pystr :=
  let message :=
    match message with
    | Some m => m
    | None => lit "Successfully add comment for applicant " ++ py_str applicant_id
    end in
  print message ;;
  ret message.

Definition log_failure (applicant_id : pyval) (message : option pystr) : M pystr :=
  let message :=
    match message with
    | Some m => m
    | None => lit "Failed to add comment for applicant " ++ py_str applicant_id
    end in
  print message ;;
  logging_error message ;;
  ret message.

(** Lines 112-115; [main] of this script does not call it. *)
Definition log_error (error_message : pystr) : M unit :=
  print error_message ;;
  logging_error error_message.

(** The fixed payload (lines 137-142): two lines of text. *)
Definition comment_data : pyval :=
  PDict [ (lit "comment",
           PStr (lit "- Change occupation CMS note: Occupation updated due to data segregation issue from 2.0 to 3.0."
                 ++ [10%N]
                 ++ lit "- Change criminal subjected CMS note: Criminal subjected updated as user is from 2.0.")) ].

(** The body of the loop of [main] (lines 132-156). *)
Definition process_row (jwt_token api_base_url : pystr) (r : row) : M unit :=
  let applicant_id := applican_id r in
  let institution_key := institution r in
  result <- add_comment applicant_id institution_key comment_data jwt_token api_base_url ;;
  success <- lift (result_is_success result) ;;
  if success : bool then
    log_success applicant_id None ;; ret tt
  else
    log_failure applicant_id
      (Some (lit "Failed to add comment for applicant: " ++ py_str applicant_id
             ++ error_details result)) ;;
    ret tt.

Definition main : M unit :=
  try_except
    (setup_logging ;;
     config <- read_config ;;
     df <- read_csv_data ;;
     for_each df (process_row (jwt_token config) (api_base_url config)))
    [ (Exception_, fun e => print (lit "Error in main process: " ++ exn_text e)) ].
End Script.
End AddComment.

(** ** What a run shows *)

(** The text of the occupation key of a row, when the cell holds text. *)
Definition occupation_key_text (r : row) : pystr :=
  match expected_occupation_key r with
  | PStr s => s
  | _ => []
  end.

(** The occupation key of the row is text, as [read_csv_data] asks of the
    column ([dtype] [str]) and as lines 155-156 use it. *)
Definition has_text_key (r : row) : Prop :=
  exists key, expected_occupation_key r = PStr key.

(** The request the updater sends for a row whose occupation key is text. *)
Definition occupation_request {rt : PyRuntime} (jwt base : pystr) (r : row) : request :=
  {| req_method := PUT;
     req_url := base ++ UpdateOccupation.API_ENDPOINT (applican_id r);
     req_headers := headers jwt;
     req_json := UpdateOccupation.data r (PStr (pad_occupation_key (occupation_key_text r))) |}.

(** The request the comment adder sends for a row. *)
Definition comment_request {rt : PyRuntime} (jwt base : pystr) (r : row) : request :=
  {| req_method := POST;
     req_url := base ++ AddComment.COMMENT_API_ENDPOINT (applican_id r) (institution r);
     req_headers := headers jwt;
     req_json := AddComment.comment_data |}.

Definition is_2xx (status : Z) : bool := ((200 <=? status) && (status <? 300))%Z.

(** The statuses on which [raise_for_status] raises: 4xx and 5xx. *)
Definition raises_for_status (status : Z) : bool :=
  (((400 <=? status) && (status <? 500)) || ((500 <=? status) && (status <? 600)))%Z.

(** The configuration file has no [Authorization] section. *)
Definition authorization_missing (w : world) : Prop :=
  exists c, config_file w = Parsed c /\ assoc (lit "Authorization") c = None.

(** The configuration cannot be loaded: the file is absent, or a section
    is absent, or a key is absent from its section. *)
Definition config_incomplete (w : world) : Prop :=
  config_file w = Absent
  \/ exists c, config_file w = Parsed c
     /\ (assoc (lit "Authorization") c = None
         \/ assoc (lit "API") c = None
         \/ (exists section, assoc (lit "Authorization") c = Some section
                              /\ assoc (lit "jwt_token") section = None)
         \/ (exists section, assoc (lit "API") c = Some section
                              /\ assoc (lit "base_url") section = None)).

(** The world [w] with another server. *)
Definition with_server (w : world) (srv : nat -> request -> http_outcome) : world :=
  {| config_file := config_file w; csv_file := csv_file w; server := srv; now := now w |}.

(** What processing the row [r] does when it is the only row and the
    server answers [o]. *)
Definition row_run {rt : PyRuntime} (jwt base : pystr) (w : world) (r : row)
    (o : http_outcome) : completion unit * list event :=
  UpdateOccupation.process_row jwt base r (with_server w (fun _ _ => o)) [].

Definition row_alone {rt : PyRuntime} (jwt base : pystr) (w : world) (r : row)
    (o : http_outcome) : list event :=
  snd (row_run jwt base w r o).

(** The rows processed one by one, each alone, the [i]-th against the
    answer the server has for request number [n + i]. *)
Fixpoint rows_alone {rt : PyRuntime} (jwt base : pystr) (w : world) (n : nat)
    (rows : list row) : list event :=
  match rows with
  | [] => []
  | r :: rest =>
      row_alone jwt base w r (server w n (occupation_request jwt base r))
      ++ rows_alone jwt base w (S n) rest
  end.

(** The answers the updater handles row by row: a transport error, a body
    that is not JSON, or a JSON object (with code "0" or any other). *)
Definition per_row_outcome (o : http_outcome) : Prop :=
  match o with
  | TransportError _ => True
  | Responded resp =>
      match decoded resp with
      | NotJson _ => True
      | Json (PDict _) => True
      | Json _ => False
      end
  end.

(** A row is classified success: it ends well, leaves no line in the error
    log and prints the success message. *)
Definition logged_success (message : pystr) (before : list event)
    (out : completion unit * list event) : Prop :=
  fst out = Ok tt
  /\ exists evs, snd out = before ++ evs /\ log_lines evs = [] /\ In (Print message) evs.

(** A row is classified failure: it ends well and leaves one line in the
    error log, the failure message, which it also prints. *)
Definition logged_failure (message_start : pystr) (before : list event)
    (out : completion unit * list event) : Prop :=
  fst out = Ok tt
  /\ exists evs details,
       snd out = before ++ evs
       /\ log_lines evs = [message_start ++ details]
       /\ In (Print (message_start ++ details)) evs.

Definition updated {rt : PyRuntime} (r : row) :=
  logged_success (lit "Successfully updated occupation for applicant " ++ py_str (applican_id r)).
Definition update_failed {rt : PyRuntime} (r : row) :=
  logged_failure (lit "Failed to update occupation for applicant " ++ py_str (applican_id r)).
Definition commented {rt : PyRuntime} (r : row) :=
  logged_success (lit "Successfully add comment for applicant " ++ py_str (applican_id r)).
Definition comment_failed {rt : PyRuntime} (r : row) :=
  logged_failure (lit "Failed to add comment for applicant: " ++ py_str (applican_id r)).

(** ** A runtime to run the model on examples *)

Definition decimal (z : Z) : pystr := lit (NilZero.string_of_int (Z.to_int z)).

(** The text of scalars as Python writes it; containers are only marked. *)
Definition plain_str (v : pyval) : pystr :=
  match v with
  | PNone => lit "None"
  | PBool true => lit "True"
  | PBool false => lit "False"
  | PInt z => decimal z
  | PFloat S754_nan => lit "nan"
  | PFloat _ => lit "<float>"
  | PStr s => s
  | PList _ => lit "[...]"
  | PDict _ => lit "{...}"
  end.

(** The runtime whose only digits are the ASCII ones. *)
Definition ascii_runtime : PyRuntime :=
  {| chr_isdigit := ascii_digit;
     chr_isdigit_ascii := fun c _ => eq_refl;
     py_str := plain_str;
     py_str_text := fun s => eq_refl |}.

(** The row, the configuration and the answers of the examples. *)
Definition example_row : row :=
  {| applican_id := PStr (lit "A1");
     institution := PStr (lit "TW");
     expected_employment_key := PStr (lit "E9");
     expected_occupation_key := PStr (lit "7") |}.

Definition example_config : ini :=
  [ (lit "Authorization", [ (lit "jwt_token", Value (lit "Bearer abc")) ]);
    (lit "API", [ (lit "base_url", Value (lit "https://cms.example")) ]) ].

Definition example_world (rows : list row) (answers : nat -> http_outcome) : world :=
  {| config_file := Parsed example_config;
     csv_file := Parsed rows;
     server := fun n _ => answers n;
     now := lit "20250101_120000" |}.

Definition quoted (s : pystr) : pystr := [34%N] ++ s ++ [34%N].

(** A response with the given status whose body is the object [{code: "0"}]. *)
Definition code_zero_response (status : Z) (why : pystr) : response :=
  {| status_code := status;
     reason := why;
     url := lit "https://cms.example/cms/v2/applicants/A1/occupation";
     text := lit "{" ++ quoted (lit "code") ++ lit ": " ++ quoted (lit "0") ++ lit "}";
     decoded := Json (PDict [ (lit "code", PStr (lit "0")) ]) |}.

(** A world whose configuration file has an [API] section only. *)
Definition world_without_authorization : world :=
  {| config_file :=
       Parsed [ (lit "API", [ (lit "base_url", Value (lit "https://cms.example")) ]) ];
     csv_file := Parsed [example_row];
     server := fun _ _ => Responded (code_zero_response 200 (lit "OK"));
     now := lit "20250101_120000" |}.

(** A world with no configuration file. *)
Definition world_without_config : world :=
  {| config_file := Absent;
     csv_file := Parsed [example_row];
     server := fun _ _ => Responded (code_zero_response 200 (lit "OK"));
     now := lit "20250101_120000" |}.

(** Three rows, and a server that cannot be reached for the first, answers
    the second with a body that is not JSON and the third with code "5". *)
Definition three_rows : list row :=
  [ example_row;
    {| applican_id := PInt 42; institution := PStr (lit "TW");
       expected_employment_key := PStr (lit "E1");
       expected_occupation_key := PStr (lit "042") |};
    {| applican_id := PStr (lit "A3"); institution := PStr (lit "TW");
       expected_employment_key := PStr (lit "E2");
       expected_occupation_key := PStr (lit "0A7") |} ].

Definition failing_answers (n : nat) : http_outcome :=
  match n with
  | 0 => TransportError (lit "Connection refused")
  | 1 => Responded {| status_code := 502; reason := lit "Bad Gateway";
                      url := lit "https://cms.example/cms/v2/applicants/42/occupation";
                      text := lit "<html>Bad Gateway</html>";
                      decoded := NotJson (lit "Expecting value: line 1 column 1 (char 0)") |}
  | _ => Responded {| status_code := 200; reason := lit "OK";
                      url := lit "https://cms.example/cms/v2/applicants/A3/occupation";
                      text := [];
                      decoded := Json (PDict [ (lit "code", PStr (lit "5"));
                                               (lit "desc", PStr (lit "invalid key")) ]) |}
  end.

(** ** More of what a run shows *)

(** The answer makes the row a success: a JSON object whose [code] is "0". *)
Definition answer_succeeds (o : http_outcome) : bool :=
  match o with
  | Responded resp =>
      match decoded resp with
      | Json (PDict d) =>
          match assoc (lit "code") d with
          | Some code => py_eq_str code (lit "0")
          | None => false
          end
      | _ => false
      end
  | TransportError _ => false
  end.

(** The rows of a run of the updater whose answer is not a success, the
    first row being answered as request number [n]. *)
Fixpoint failed_rows {rt : PyRuntime} (jwt base : pystr) (w : world) (n : nat)
    (rows : list row) : list row :=
  match rows with
  | [] => []
  | r :: rest =>
      (if answer_succeeds (server w n (occupation_request jwt base r)) then [] else [r])
      ++ failed_rows jwt base w (S n) rest
  end.

(** The answers the comment adder is followed on here: a transport error,
    a 4xx or 5xx status, or a JSON object. *)
Definition comment_outcome (o : http_outcome) : Prop :=
  match o with
  | TransportError _ => True
  | Responded resp =>
      raises_for_status (status_code resp) = true
      \/ exists d, decoded resp = Json (PDict d)
  end.

(** A world whose configuration file cannot be parsed. *)
Definition world_with_malformed_config : world :=
  {| config_file := Malformed (lit "File contains no section headers.");
     csv_file := Parsed [example_row];
     server := fun _ _ => Responded (code_zero_response 200 (lit "OK"));
     now := lit "20250101_120000" |}.

(** A world with a configuration and no table. *)
Definition world_without_table : world :=
  {| config_file := Parsed example_config;
     csv_file := Absent;
     server := fun _ _ => Responded (code_zero_response 200 (lit "OK"));
     now := lit "20250101_120000" |}.

(** A row whose occupation cell is empty: pandas reads it as NaN. *)
Definition row_with_empty_key : row :=
  {| applican_id := PStr (lit "A2"); institution := PStr (lit "TW");
     expected_employment_key := PStr (lit "E1");
     expected_occupation_key := PFloat S754_nan |}.

(** A 200 answer whose body is the JSON number 5. *)
Definition number_response : response :=
  {| status_code := 200; reason := lit "OK";
     url := lit "https://cms.example/cms/v2/applicants/A1/occupation";
     text := lit "5";
     decoded := Json (PInt 5) |}.

(** A world whose configuration file has [jwt_token = abc%def] and no
    [API] section. *)
Definition world_with_bad_token : world :=
  {| config_file :=
       Parsed [ (lit "Authorization",
                 [ (lit "jwt_token",
                    BadValue (lit "'%' must be followed by '%' or '(', found: '%def'")) ]) ];
     csv_file := Parsed [example_row];
     server := fun _ _ => Responded (code_zero_response 200 (lit "OK"));
     now := lit "20250101_120000" |}.

(** * Properties *)

(** ** Text *)

Lemma pystr_eqb_eq (a b : pystr) : pystr_eqb a b = true <-> a = b.
Proof.
  unfold pystr_eqb. destruct (list_eq_dec N.eq_dec a b); split; congruence.
Qed.

Lemma pystr_eqb_refl (a : pystr) : pystr_eqb a a = true.
Proof. now apply pystr_eqb_eq. Qed.

Lemma starts_with_app (p s : pystr) : starts_with p (p ++ s) = true.
Proof.
  induction p as [|c p IH]; simpl; [reflexivity|].
  now rewrite N.eqb_refl, IH.
Qed.

Lemma starts_with_inv (p s : pystr) :
  starts_with p s = true -> exists rest, s = p ++ rest.
Proof.
  revert s. induction p as [|c p IH]; intros s H; simpl in *; [eauto|].
  destruct s as [|b s]; [discriminate|].
  apply andb_true_iff in H. destruct H as [Hc Hp].
  apply N.eqb_eq in Hc. subst b.
  destruct (IH s Hp) as [rest ->]. eauto.
Qed.

Lemma str_contains_app (pre sub post : pystr) :
  str_contains sub (pre ++ sub ++ post) = true.
Proof.
  induction pre as [|c pre IH]; simpl.
  - destruct (sub ++ post) eqn:E; simpl.
    + destruct sub; [reflexivity|discriminate].
    + rewrite <- E, starts_with_app. reflexivity.
  - rewrite IH. apply orb_true_r.
Qed.

Section StrFacts.
Context {rt : PyRuntime}.

Lemma str_isdigit_iff (s : pystr) :
  str_isdigit s = true <-> s <> [] /\ Forall (fun c => chr_isdigit c = true) s.
Proof.
  unfold str_isdigit. rewrite andb_true_iff, forallb_forall, Forall_forall.
  destruct s; simpl; split; intros [H1 H2]; split; auto; congruence.
Qed.

Lemma digit_not_sign (c : codepoint) : chr_isdigit c = true -> is_sign c = false.
Proof.
  intros Hd. unfold is_sign.
  destruct (N.eqb_spec c 43) as [->|]; [|destruct (N.eqb_spec c 45) as [->|]]; simpl; auto.
  - rewrite chr_isdigit_ascii in Hd by reflexivity. discriminate.
  - rewrite chr_isdigit_ascii in Hd by reflexivity. discriminate.
Qed.

Lemma str_zfill_length (s : pystr) (width : nat) :
  length (str_zfill s width) = Nat.max width (length s).
Proof.
  unfold str_zfill. destruct (Nat.leb_spec width (length s)) as [H|H]; [lia|].
  destruct s as [|c rest]; simpl in *.
  - rewrite repeat_length. lia.
  - destruct (is_sign c); simpl; rewrite length_app, repeat_length; simpl; lia.
Qed.

Lemma str_zfill_digits (s : pystr) (width : nat) :
  str_isdigit s = true ->
  str_zfill s width = repeat zero_char (width - length s) ++ s.
Proof.
  intros Hd. unfold str_zfill.
  destruct (Nat.leb_spec width (length s)) as [H|H].
  - replace (width - length s) with 0 by lia. reflexivity.
  - destruct s as [|c rest]; [discriminate|].
    apply str_isdigit_iff in Hd. destruct Hd as [_ Hall].
    inversion Hall; subst. now rewrite digit_not_sign.
Qed.

Lemma pad_occupation_key_length (s : pystr) :
  str_isdigit s = true -> 3 <= length (pad_occupation_key s).
Proof.
  intros Hd. unfold pad_occupation_key. rewrite Hd. simpl.
  destruct (Nat.ltb_spec (length s) 3); [|assumption].
  rewrite str_zfill_length. lia.
Qed.

Lemma pad_short_digits (s : pystr) :
  str_isdigit s = true -> length s < 3 ->
  pad_occupation_key s = repeat zero_char (3 - length s) ++ s.
Proof.
  intros Hd Hl. unfold pad_occupation_key. rewrite Hd.
  destruct (Nat.ltb_spec (length s) 3); [simpl|lia].
  now apply str_zfill_digits.
Qed.

Lemma pad_long (s : pystr) : 3 <= length s -> pad_occupation_key s = s.
Proof.
  intros Hl. unfold pad_occupation_key.
  destruct (Nat.ltb_spec (length s) 3); [lia|]. now rewrite andb_false_r.
Qed.

Lemma pad_not_digits (s : pystr) : str_isdigit s = false -> pad_occupation_key s = s.
Proof. intros Hd. unfold pad_occupation_key. now rewrite Hd. Qed.

Lemma pad_seven : pad_occupation_key (lit "7") = lit "007".
Proof.
  apply pad_short_digits; [|simpl; lia].
  unfold str_isdigit. simpl. now rewrite chr_isdigit_ascii by reflexivity.
Qed.
End StrFacts.

(** ** Traces *)

Lemma http_requests_app (a b : list event) :
  http_requests (a ++ b) = http_requests a ++ http_requests b.
Proof. apply flat_map_app. Qed.

Lemma log_lines_app (a b : list event) :
  log_lines (a ++ b) = log_lines a ++ log_lines b.
Proof. apply flat_map_app. Qed.

Lemma http_requests_print (tr : list event) (t : pystr) :
  http_requests (tr ++ [Print t]) = http_requests tr.
Proof. rewrite http_requests_app. simpl. apply app_nil_r. Qed.

Section UpdateFacts.
Context {rt : PyRuntime}.
Import UpdateOccupation.

Ltac run_update :=
  unfold update_occupation, requests_send, try_except, bind, ret, lift, print, emit.

Lemma update_occupation_json id payload jwt base w tr resp v :
  server w (length (http_requests tr))
    {| req_method := PUT; req_url := base ++ API_ENDPOINT id;
       req_headers := headers jwt; req_json := payload |} = Responded resp ->
  decoded resp = Json v ->
  update_occupation id payload jwt base w tr
  = (Ok v, tr ++ [Http {| req_method := PUT; req_url := base ++ API_ENDPOINT id;
       req_headers := headers jwt; req_json := payload |}]).
Proof.
  intros Hs Hd. run_update. rewrite Hs. unfold response_json. rewrite Hd. reflexivity.
Qed.

Lemma update_occupation_not_json id payload jwt base w tr resp why :
  server w (length (http_requests tr))
    {| req_method := PUT; req_url := base ++ API_ENDPOINT id;
       req_headers := headers jwt; req_json := payload |} = Responded resp ->
  decoded resp = NotJson why ->
  update_occupation id payload jwt base w tr
  = (Ok (not_json_result resp),
     tr ++ [Http {| req_method := PUT; req_url := base ++ API_ENDPOINT id;
       req_headers := headers jwt; req_json := payload |}]).
Proof.
  intros Hs Hd. run_update. rewrite Hs. unfold response_json. rewrite Hd. reflexivity.
Qed.

Lemma update_occupation_transport id payload jwt base w tr why :
  server w (length (http_requests tr))
    {| req_method := PUT; req_url := base ++ API_ENDPOINT id;
       req_headers := headers jwt; req_json := payload |} = TransportError why ->
  update_occupation id payload jwt base w tr
  = (Ok (request_exception_result why),
     tr ++ [Http {| req_method := PUT; req_url := base ++ API_ENDPOINT id;
                    req_headers := headers jwt; req_json := payload |};
            Print (lit "Error updating occupation for applicant " ++ py_str id
                   ++ lit ": " ++ why)]).
Proof.
  intros Hs. run_update. rewrite Hs. simpl. now rewrite <- app_assoc.
Qed.
End UpdateFacts.

Lemma py_eq_str_true (v : pyval) (s : pystr) : py_eq_str v s = true <-> v = PStr s.
Proof.
  destruct v; simpl; try (split; [discriminate|congruence]).
  rewrite pystr_eqb_eq. split; congruence.
Qed.

Lemma result_is_success_dict (d : list (pystr * pyval)) :
  result_is_success (PDict d)
  = Ok (match assoc (lit "code") d with
        | Some code => py_eq_str code (lit "0")
        | None => false
        end).
Proof.
  unfold result_is_success, py_contains, py_getitem.
  destruct d as [|kv d]; [reflexivity|].
  cbn [py_truthy length Nat.eqb negb].
  destruct (assoc (lit "code") (kv :: d)); reflexivity.
Qed.

Lemma result_is_success_true (v : pyval) :
  result_is_success v = Ok true
  <-> exists d, v = PDict d /\ assoc (lit "code") d = Some (PStr (lit "0")).
Proof.
  split.
  - intros H. destruct v as [| b | z | f | s | l | d].
    + discriminate.
    + destruct b; discriminate.
    + unfold result_is_success in H. simpl in H. destruct (z =? 0)%Z; discriminate.
    + unfold result_is_success in H. destruct f; discriminate.
    + unfold result_is_success in H. destruct (py_truthy (PStr s)); [|discriminate].
      simpl in H. destruct (str_contains (lit "code") s); discriminate.
    + unfold result_is_success in H. destruct (py_truthy (PList l)); [|discriminate].
      simpl in H. destruct (existsb _ l); discriminate.
    + exists d. split; [reflexivity|].
      rewrite result_is_success_dict in H.
      destruct (assoc (lit "code") d) as [code|]; [|discriminate].
      injection H as H. apply py_eq_str_true in H. now subst.
  - intros (d & -> & Hc). rewrite result_is_success_dict, Hc. simpl.
    now rewrite pystr_eqb_refl.
Qed.

Section RowFacts.
Context {rt : PyRuntime}.
Import UpdateOccupation.

Lemma process_row_unfold jwt base r key w tr :
  expected_occupation_key r = PStr key ->
  process_row jwt base r w tr
  = let payload := data r (PStr (pad_occupation_key key)) in
    match update_occupation (applican_id r) payload jwt base w
            (tr ++ [Print (py_str payload)]) with
    | (Ok result, tr') =>
        match result_is_success result with
        | Ok true =>
            (Ok tt, tr' ++ [Print (lit "Successfully updated occupation for applicant "
                                    ++ py_str (applican_id r))])
        | Ok false =>
            let m := lit "Failed to update occupation for applicant "
                     ++ py_str (applican_id r) ++ error_details result in
            (Ok tt, tr' ++ [Print m; LogError m])
        | Raise e => (Raise e, tr')
        end
    | (Raise e, tr') => (Raise e, tr')
    end.
Proof.
  intros Hk. unfold process_row. rewrite Hk.
  unfold occupation_value, bind, lift, print, emit. cbv zeta.
  destruct (update_occupation _ _ _ _ _ _) as [[result|e] tr']; [|reflexivity].
  destruct (result_is_success result) as [[|]|e]; try reflexivity.
  unfold log_failure, bind, print, logging_error, emit, ret.
  now rewrite <- app_assoc.
Qed.
End RowFacts.

Section LoopFacts.
Context {rt : PyRuntime}.
Import UpdateOccupation.

Lemma update_occupation_outcome id payload jwt base w tr :
  update_occupation id payload jwt base w tr
  = let req := {| req_method := PUT; req_url := base ++ API_ENDPOINT id;
                  req_headers := headers jwt; req_json := payload |} in
    match server w (length (http_requests tr)) req with
    | Responded resp =>
        (Ok match decoded resp with
            | Json v => v
            | NotJson _ => not_json_result resp
            end,
         tr ++ [Http req])
    | TransportError why =>
        (Ok (request_exception_result why),
         tr ++ [Http req;
                Print (lit "Error updating occupation for applicant " ++ py_str id
                       ++ lit ": " ++ why)])
    end.
Proof.
  cbv zeta.
  destruct (server w _ _) as [resp|why] eqn:Hs.
  - destruct (decoded resp) as [v|why] eqn:Hd.
    + exact (update_occupation_json _ _ _ _ _ _ _ _ Hs Hd).
    + exact (update_occupation_not_json _ _ _ _ _ _ _ _ Hs Hd).
  - now apply update_occupation_transport.
Qed.

Lemma occupation_request_text jwt base r key :
  expected_occupation_key r = PStr key ->
  occupation_request jwt base r
  = {| req_method := PUT; req_url := base ++ API_ENDPOINT (applican_id r);
       req_headers := headers jwt;
       req_json := data r (PStr (pad_occupation_key key)) |}.
Proof. intros Hk. unfold occupation_request, occupation_key_text. now rewrite Hk. Qed.

(** A row in the middle of a run does what it does alone against the
    same answer, after what came before. *)
Lemma process_row_frame jwt base r w tr :
  has_text_key r ->
  process_row jwt base r w tr
  = (fst (row_run jwt base w r
            (server w (length (http_requests tr)) (occupation_request jwt base r))),
     tr ++ row_alone jwt base w r
             (server w (length (http_requests tr)) (occupation_request jwt base r))).
Proof.
  intros [key Hk]. unfold row_alone, row_run.
  pose proof (fun w0 tr0 => @process_row_unfold rt jwt base r key w0 tr0 Hk) as Hu. rewrite !Hu. cbv zeta.
  rewrite !update_occupation_outcome. cbv zeta.
  rewrite http_requests_print. rewrite (@occupation_request_text jwt base r key Hk).
  cbn [with_server server].
  destruct (server w _ _) as [resp|why].
  - destruct (result_is_success _) as [[|]|e]; cbn [fst snd];
      rewrite <- ?app_assoc; reflexivity.
  - destruct (result_is_success _) as [[|]|e]; cbn [fst snd];
      rewrite <- ?app_assoc; reflexivity.
Qed.
End LoopFacts.

(** ** Normalising the occupation key *)

(** C1: a key made only of digits and shorter than 3 characters is padded
    on the left with zeros to exactly 3 characters; every other key (3
    characters or more, empty, or with a character that is not a digit)
    stays as it is.  So "7" gives "007", and "042", "1234" and "0A7" stay. *)
Theorem pad_occupation_key_spec {rt : PyRuntime} (s : pystr) :
  (s <> [] -> Forall (fun c => chr_isdigit c = true) s -> length s < 3 ->
   pad_occupation_key s = repeat zero_char (3 - length s) ++ s
   /\ length (pad_occupation_key s) = 3)
  /\ (3 <= length s \/ s = [] \/ Exists (fun c => chr_isdigit c = false) s ->
      pad_occupation_key s = s)
  /\ pad_occupation_key (lit "7") = lit "007"
  /\ pad_occupation_key (lit "042") = lit "042"
  /\ pad_occupation_key (lit "1234") = lit "1234"
  /\ pad_occupation_key (lit "0A7") = lit "0A7".
Proof.
  pose proof pad_short_digits as Hpad.
  pose proof pad_long as Hlong.
  pose proof pad_not_digits as Hnot.
  split; [|split; [|split; [|split; [|split]]]].
  - intros Hne Hall Hlen.
    assert (Hd : str_isdigit s = true) by (apply str_isdigit_iff; auto).
    rewrite (Hpad s Hd Hlen). split; [reflexivity|].
    rewrite length_app, repeat_length. lia.
  - intros [Hl|[He|Hx]].
    + now apply Hlong.
    + subst s. reflexivity.
    + apply Hnot. destruct (str_isdigit s) eqn:Hd; [|reflexivity].
      apply str_isdigit_iff in Hd. destruct Hd as [_ Hall].
      apply Exists_exists in Hx. destruct Hx as (c & Hin & Hc).
      rewrite Forall_forall in Hall. specialize (Hall c Hin). congruence.
  - apply pad_seven.
  - apply Hlong. simpl. lia.
  - apply Hlong. simpl. lia.
  - apply Hlong. simpl. lia.
Qed.

(** C1 run on the ASCII runtime: the key "7". *)
Lemma pad_occupation_key_spec_witness :
  @pad_occupation_key ascii_runtime (lit "7") = lit "007".
Proof.
  exact (proj1 (proj2 (proj2 (@pad_occupation_key_spec ascii_runtime (lit "7"))))).
Defined.

(** C8: normalising twice gives what normalising once gives; after one
    normalisation a non-empty all-digit key has at least 3 characters, so
    the second one changes nothing. *)
Theorem pad_occupation_key_idempotent {rt : PyRuntime} (s : pystr) :
  pad_occupation_key (pad_occupation_key s) = pad_occupation_key s
  /\ (s <> [] -> Forall (fun c => chr_isdigit c = true) s ->
      3 <= length (pad_occupation_key s)).
Proof.
  split.
  - destruct (str_isdigit s && (length s <? 3)) eqn:Hc.
    + assert (E : pad_occupation_key s = str_zfill s 3)
        by (unfold pad_occupation_key; now rewrite Hc).
      rewrite E. unfold pad_occupation_key.
      assert (Hl : length (str_zfill s 3) = Nat.max 3 (length s))
        by apply str_zfill_length.
      destruct (Nat.ltb_spec (length (str_zfill s 3)) 3); [lia|].
      now rewrite andb_false_r.
    + assert (E : pad_occupation_key s = s)
        by (unfold pad_occupation_key; now rewrite Hc).
      now rewrite !E.
  - intros Hne Hall. apply pad_occupation_key_length.
    apply str_isdigit_iff. auto.
Qed.

(** ** One row of the updater *)

Section RowCases.
Context {rt : PyRuntime}.
Import UpdateOccupation.

Variables (jwt base : pystr) (r : row) (key : pystr) (w : world) (tr : list event).
Hypothesis Hkey : expected_occupation_key r = PStr key.

Let payload := data r (PStr (pad_occupation_key key)).
Let req := occupation_request jwt base r.
Let failed := lit "Failed to update occupation for applicant " ++ py_str (applican_id r).

(** The server answers: the row ends by what [result_is_success] says
    of the decoded body. *)
Lemma process_row_responded (resp : response) :
  server w (length (http_requests tr)) req = Responded resp ->
  process_row jwt base r w tr
  = let result := match decoded resp with
                  | Json v => v
                  | NotJson _ => not_json_result resp
                  end in
    let sent := tr ++ [Print (py_str payload); Http req] in
    match result_is_success result with
    | Ok true =>
        (Ok tt, sent ++ [Print (lit "Successfully updated occupation for applicant "
                                ++ py_str (applican_id r))])
    | Ok false =>
        (Ok tt, sent ++ [Print (failed ++ error_details result);
                         LogError (failed ++ error_details result)])
    | Raise e => (Raise e, sent)
    end.
Proof.
  intros Hs. subst req. rewrite (process_row_frame jwt base r w tr (ex_intro _ key Hkey)).
  rewrite Hs. unfold row_alone, row_run.
  rewrite (@process_row_unfold rt jwt base r key _ _ Hkey). cbv zeta.
  rewrite update_occupation_outcome. cbv zeta. cbn [with_server server].
  rewrite (@occupation_request_text rt jwt base r key Hkey).
  fold payload. subst failed.
  destruct (result_is_success _) as [[|]|e]; cbn [fst snd app];
    rewrite <- ?app_assoc; reflexivity.
Qed.

(** The request fails in transport: the row is logged as a failure. *)
Lemma process_row_transport (why : pystr) :
  server w (length (http_requests tr)) req = TransportError why ->
  process_row jwt base r w tr
  = (Ok tt,
     tr ++ [Print (py_str payload); Http req;
            Print (lit "Error updating occupation for applicant "
                   ++ py_str (applican_id r) ++ lit ": " ++ why);
            Print failed; LogError failed]).
Proof.
  intros Hs. subst req. rewrite (process_row_frame jwt base r w tr (ex_intro _ key Hkey)).
  rewrite Hs. unfold row_alone, row_run.
  rewrite (@process_row_unfold rt jwt base r key _ _ Hkey). cbv zeta.
  rewrite update_occupation_outcome. cbv zeta. cbn [with_server server].
  rewrite (@occupation_request_text rt jwt base r key Hkey).
  fold payload. subst failed.
  unfold request_exception_result. rewrite result_is_success_dict.
  cbn [fst snd app error_details assoc find fst snd].
  replace (pystr_eqb (lit "success") (lit "code")) with false by reflexivity.
  replace (pystr_eqb (lit "error_code") (lit "code")) with false by reflexivity.
  replace (pystr_eqb (lit "error_message") (lit "code")) with false by reflexivity.
  rewrite app_nil_r. reflexivity.
Qed.

(** Whatever the server answers, the row sends its request once. *)
Lemma process_row_requests :
  http_requests (snd (process_row jwt base r w tr)) = http_requests tr ++ [req].
Proof.
  destruct (server w (length (http_requests tr)) req) as [resp|why] eqn:Hs.
  - rewrite (process_row_responded resp Hs). cbv zeta.
    destruct (result_is_success _) as [[|]|e]; cbn [snd];
      rewrite ?http_requests_app; simpl; now rewrite ?app_nil_r.
  - rewrite (process_row_transport why Hs). cbn [snd].
    now rewrite http_requests_app.
Qed.
End RowCases.

(** ** The request of a row *)

(** C3, as the code has it: for a row whose occupation key is text, the
    updater sends one HTTP PUT to
    [{base_url}/cms/v2/applicants/{applicant_id}/occupation] with the
    headers [Authorization: {jwt_token}] and [Content-Type: application/json]
    and the JSON body [{employment_key, occupation_key, is_public_politician:
    false, is_criminal_investigation: false}], where [occupation_key] is the
    normalised key; for the row [A1, E9, "7"] the [occupation_key] sent is
    "007". *)
Theorem update_request_construction {rt : PyRuntime}
    (jwt base : pystr) (r : row) (key : pystr) (w : world) (tr : list event) :
  expected_occupation_key r = PStr key ->
  http_requests (snd (UpdateOccupation.process_row jwt base r w tr))
  = http_requests tr
    ++ [ {| req_method := PUT;
            req_url := base ++ lit "/cms/v2/applicants/" ++ py_str (applican_id r)
                       ++ lit "/occupation";
            req_headers := [ (lit "Authorization", jwt);
                             (lit "Content-Type", lit "application/json") ];
            req_json := PDict [ (lit "employment_key", expected_employment_key r);
                                (lit "occupation_key", PStr (pad_occupation_key key));
                                (lit "is_public_politician", PBool false);
                                (lit "is_criminal_investigation", PBool false) ] |} ]
  /\ (applican_id r = PStr (lit "A1") ->
      expected_employment_key r = PStr (lit "E9") ->
      key = lit "7" ->
      map req_url (http_requests (snd (UpdateOccupation.process_row jwt base r w tr)))
      = map req_url (http_requests tr) ++ [ base ++ lit "/cms/v2/applicants/A1/occupation" ]
      /\ map req_json (http_requests (snd (UpdateOccupation.process_row jwt base r w tr)))
         = map req_json (http_requests tr)
           ++ [ PDict [ (lit "employment_key", PStr (lit "E9"));
                        (lit "occupation_key", PStr (lit "007"));
                        (lit "is_public_politician", PBool false);
                        (lit "is_criminal_investigation", PBool false) ] ]).
Proof.
  intros Hk.
  pose proof (@process_row_requests rt jwt base r key w tr Hk) as Hreq.
  rewrite (@occupation_request_text rt jwt base r key Hk) in Hreq.
  split; [exact Hreq|].
  intros Hid Hemp ->. rewrite Hreq, !map_app.
  unfold UpdateOccupation.data, UpdateOccupation.API_ENDPOINT. cbn [map req_url req_json].
  rewrite Hid, Hemp, py_str_text.
  rewrite pad_seven. split; reflexivity.
Qed.

(** C3 as stated fails: "for every row" includes a row whose occupation
    cell is empty.  pandas reads it as NaN even with [dtype] [str]; line 155
    calls [isdigit] on it, which raises, and the row sends no request. *)
Lemma empty_key_row_sends_nothing :
  let out :=
    @UpdateOccupation.process_row ascii_runtime (lit "Bearer abc") (lit "https://cms.example")
      row_with_empty_key
      (example_world [row_with_empty_key]
         (fun _ => Responded (code_zero_response 200 (lit "OK"))))
      [] in
  http_requests (snd out) = []
  /\ fst out
     = Raise {| exn_cls := AttributeError;
                exn_text := lit "'float' object has no attribute 'isdigit'" |}.
Proof. vm_compute. split; reflexivity. Qed.

(** C3 on the example row, run with the ASCII runtime. *)
Lemma update_request_construction_witness :
  http_requests
    (snd (@UpdateOccupation.process_row ascii_runtime (lit "Bearer abc")
            (lit "https://cms.example") example_row
            (example_world [example_row] (fun _ => Responded (code_zero_response 200 (lit "OK"))))
            []))
  = [ {| req_method := PUT;
         req_url := lit "https://cms.example/cms/v2/applicants/A1/occupation";
         req_headers := [ (lit "Authorization", lit "Bearer abc");
                          (lit "Content-Type", lit "application/json") ];
         req_json := PDict [ (lit "employment_key", PStr (lit "E9"));
                             (lit "occupation_key", PStr (lit "007"));
                             (lit "is_public_politician", PBool false);
                             (lit "is_criminal_investigation", PBool false) ] |} ].
Proof.
  exact (proj1 (@update_request_construction ascii_runtime (lit "Bearer abc")
                  (lit "https://cms.example") example_row (lit "7")
                  (example_world [example_row]
                     (fun _ => Responded (code_zero_response 200 (lit "OK"))))
                  [] eq_refl)).
Defined.

(** ** Classifying the answer *)

Lemma result_is_success_other_code (d : list (pystr * pyval)) :
  assoc (lit "code") d <> Some (PStr (lit "0")) ->
  result_is_success (PDict d) = Ok false.
Proof.
  intros Hc. rewrite result_is_success_dict.
  destruct (assoc (lit "code") d) as [code|]; [|reflexivity].
  destruct (py_eq_str code (lit "0")) eqn:E; [|reflexivity].
  apply py_eq_str_true in E. congruence.
Qed.

Lemma logged_success_intro (message : pystr) (tr pre : list event) :
  log_lines pre = [] ->
  logged_success message tr (Ok tt, (tr ++ pre) ++ [Print message]).
Proof.
  intros Hpre. split; [reflexivity|]. exists (pre ++ [Print message]). cbn [snd].
  rewrite app_assoc, log_lines_app, Hpre. repeat split.
  apply in_or_app. right. now left.
Qed.

Lemma logged_failure_intro (start details : pystr) (tr pre : list event) :
  log_lines pre = [] ->
  logged_failure start tr
    (Ok tt, (tr ++ pre) ++ [Print (start ++ details); LogError (start ++ details)]).
Proof.
  intros Hpre. split; [reflexivity|].
  exists (pre ++ [Print (start ++ details); LogError (start ++ details)]), details.
  cbn [snd]. rewrite app_assoc, log_lines_app, Hpre. repeat split.
  apply in_or_app. right. now left.
Qed.

Lemma logged_success_no_line (message : pystr) (tr evs : list event)
    (c : completion unit) :
  log_lines evs <> [] -> ~ logged_success message tr (c, tr ++ evs).
Proof.
  intros Hne (_ & evs' & Hsnd & Hlog & _). cbn [snd] in Hsnd.
  apply app_inv_head in Hsnd. congruence.
Qed.

Section Classification.
Context {rt : PyRuntime}.
Import UpdateOccupation.

Variables (jwt base : pystr) (r : row) (w : world) (tr : list event) (resp : response).
Hypothesis Hkey : has_text_key r.
Hypothesis Hanswer :
  server w (length (http_requests tr)) (occupation_request jwt base r) = Responded resp.

Lemma process_row_success (d : list (pystr * pyval)) :
  decoded resp = Json (PDict d) ->
  assoc (lit "code") d = Some (PStr (lit "0")) ->
  updated r tr (process_row jwt base r w tr).
Proof.
  intros Hd Hc. destruct Hkey as [key Hk].
  rewrite (@process_row_responded rt jwt base r key w tr Hk resp Hanswer), Hd. cbv zeta.
  rewrite (proj2 (result_is_success_true (PDict d))) by eauto.
  apply logged_success_intro. reflexivity.
Qed.

Lemma process_row_other_code (d : list (pystr * pyval)) :
  decoded resp = Json (PDict d) ->
  assoc (lit "code") d <> Some (PStr (lit "0")) ->
  update_failed r tr (process_row jwt base r w tr).
Proof.
  intros Hd Hc. destruct Hkey as [key Hk].
  rewrite (@process_row_responded rt jwt base r key w tr Hk resp Hanswer), Hd. cbv zeta.
  rewrite (result_is_success_other_code d Hc).
  apply logged_failure_intro. reflexivity.
Qed.

Lemma process_row_not_json (why : pystr) :
  decoded resp = NotJson why ->
  update_failed r tr (process_row jwt base r w tr).
Proof.
  intros Hd. destruct Hkey as [key Hk].
  rewrite (@process_row_responded rt jwt base r key w tr Hk resp Hanswer), Hd. cbv zeta.
  unfold not_json_result at 1. rewrite result_is_success_other_code by discriminate.
  apply logged_failure_intro. reflexivity.
Qed.

Lemma process_row_success_only :
  updated r tr (process_row jwt base r w tr) ->
  exists d, decoded resp = Json (PDict d) /\ assoc (lit "code") d = Some (PStr (lit "0")).
Proof.
  destruct Hkey as [key Hk].
  rewrite (@process_row_responded rt jwt base r key w tr Hk resp Hanswer). cbv zeta.
  destruct (decoded resp) as [v|why] eqn:Hd.
  - destruct (result_is_success v) as [[|]|e] eqn:Hv.
    + intros _. apply result_is_success_true in Hv. destruct Hv as (d & -> & Hc). eauto.
    + intros H. exfalso. revert H.
      rewrite <- app_assoc. apply logged_success_no_line. discriminate.
    + intros [H _]. discriminate.
  - unfold not_json_result at 1. rewrite result_is_success_other_code by discriminate.
    intros H. exfalso. revert H.
    rewrite <- app_assoc. apply logged_success_no_line. discriminate.
Qed.
End Classification.

(** C2, as the code has it: when the server answers, the updater classifies
    the row success exactly when the body decodes to a JSON object whose
    [code] is the string "0", whatever the HTTP status; an object with
    another [code] or with none (such as [{}]) and a body that is not JSON
    are classified failure. *)
Theorem update_classification {rt : PyRuntime}
    (jwt base : pystr) (r : row) (w : world) (tr : list event) (resp : response) :
  has_text_key r ->
  server w (length (http_requests tr)) (occupation_request jwt base r) = Responded resp ->
  (updated r tr (UpdateOccupation.process_row jwt base r w tr)
   <-> exists d, decoded resp = Json (PDict d)
                 /\ assoc (lit "code") d = Some (PStr (lit "0")))
  /\ (forall d, decoded resp = Json (PDict d) ->
                assoc (lit "code") d <> Some (PStr (lit "0")) ->
                update_failed r tr (UpdateOccupation.process_row jwt base r w tr))
  /\ (forall why, decoded resp = NotJson why ->
                  update_failed r tr (UpdateOccupation.process_row jwt base r w tr)).
Proof.
  intros Hkey Hanswer. split; [split|split].
  - now apply process_row_success_only with (resp := resp).
  - intros (d & Hd & Hc). now apply process_row_success with (resp := resp) (d := d).
  - intros d Hd Hc. now apply process_row_other_code with (resp := resp) (d := d).
  - intros why Hd. now apply process_row_not_json with (resp := resp) (why := why).
Qed.

(** C2 on the example row: a 200 answer carrying [{code: "0"}] is a success. *)
Lemma update_classification_witness :
  @updated ascii_runtime example_row []
    (@UpdateOccupation.process_row ascii_runtime (lit "Bearer abc") (lit "https://cms.example")
       example_row
       (example_world [example_row] (fun _ => Responded (code_zero_response 200 (lit "OK"))))
       []).
Proof.
  apply (proj1 (@update_classification ascii_runtime (lit "Bearer abc")
                  (lit "https://cms.example") example_row
                  (example_world [example_row]
                     (fun _ => Responded (code_zero_response 200 (lit "OK"))))
                  [] (code_zero_response 200 (lit "OK"))
                  (ex_intro _ (lit "7") eq_refl) eq_refl)).
  exists [ (lit "code", PStr (lit "0")) ]. split; reflexivity.
Defined.

(** C2 as stated fails: the updater never looks at the HTTP status, and a
    500 answer whose body is [{code: "0"}] is classified success, with
    nothing written to the error log. *)
Lemma update_ignores_status :
  let out :=
    @UpdateOccupation.process_row ascii_runtime (lit "Bearer abc") (lit "https://cms.example")
      example_row
      (example_world [example_row]
         (fun _ => Responded (code_zero_response 500 (lit "Internal Server Error"))))
      [] in
  is_2xx (status_code (code_zero_response 500 (lit "Internal Server Error"))) = false
  /\ fst out = Ok tt
  /\ printed (snd out) = [ lit "{...}"; lit "Successfully updated occupation for applicant A1" ]
  /\ log_lines (snd out) = [].
Proof. vm_compute. repeat split. Qed.

(** ** One row of the comment adder *)

Section CommentFacts.
Context {rt : PyRuntime}.
Import AddComment.

Lemma raise_for_status_cases (resp : response) :
  (raises_for_status (status_code resp) = true
   /\ exists text, raise_for_status resp = throw HTTPError text)
  \/ (raises_for_status (status_code resp) = false /\ raise_for_status resp = Ok tt).
Proof.
  unfold raises_for_status, raise_for_status.
  destruct ((400 <=? status_code resp)%Z && (status_code resp <? 500)%Z).
  - left. split; [reflexivity|]. eauto.
  - destruct ((500 <=? status_code resp)%Z && (status_code resp <? 600)%Z).
    + left. split; [reflexivity|]. eauto.
    + right. split; reflexivity.
Qed.

Variables (jwt base : pystr) (r : row) (w : world) (tr : list event).

Let req := comment_request jwt base r.
Let trouble (text : pystr) :=
  Print (lit "Error adding comment for applicant " ++ py_str (applican_id r)
         ++ lit ", institution " ++ py_str (institution r) ++ lit ": " ++ text).
Let failed := lit "Failed to add comment for applicant: " ++ py_str (applican_id r).

Lemma add_comment_transport (why : pystr) :
  server w (length (http_requests tr)) req = TransportError why ->
  add_comment (applican_id r) (institution r) comment_data jwt base w tr
  = (Ok PNone, tr ++ [Http req; trouble why]).
Proof.
  intros Hs. unfold add_comment, requests_send, try_except, bind, ret, lift, print, emit.
  fold (comment_request jwt base r). fold req. rewrite Hs. simpl.
  now rewrite <- app_assoc.
Qed.

Lemma add_comment_refused (resp : response) :
  server w (length (http_requests tr)) req = Responded resp ->
  raises_for_status (status_code resp) = true ->
  exists text,
    add_comment (applican_id r) (institution r) comment_data jwt base w tr
    = (Ok PNone, tr ++ [Http req; trouble text]).
Proof.
  intros Hs Hst.
  destruct (raise_for_status_cases resp) as [(_ & text & Hr)|(Hf & _)]; [|congruence].
  exists text.
  unfold add_comment, requests_send, try_except, bind, ret, lift, print, emit.
  fold (comment_request jwt base r). fold req. rewrite Hs, Hr. simpl.
  now rewrite <- app_assoc.
Qed.

Lemma add_comment_json (resp : response) (v : pyval) :
  server w (length (http_requests tr)) req = Responded resp ->
  raises_for_status (status_code resp) = false ->
  decoded resp = Json v ->
  add_comment (applican_id r) (institution r) comment_data jwt base w tr
  = (Ok v, tr ++ [Http req]).
Proof.
  intros Hs Hst Hd.
  destruct (raise_for_status_cases resp) as [(Ht & _)|(_ & Hr)]; [congruence|].
  unfold add_comment, requests_send, try_except, bind, ret, lift, print, emit.
  fold (comment_request jwt base r). fold req. rewrite Hs, Hr.
  unfold response_json. rewrite Hd. reflexivity.
Qed.

Lemma comment_row_unfold :
  process_row jwt base r w tr
  = match add_comment (applican_id r) (institution r) comment_data jwt base w tr with
    | (Ok result, tr') =>
        match result_is_success result with
        | Ok true =>
            (Ok tt, tr' ++ [Print (lit "Successfully add comment for applicant "
                                    ++ py_str (applican_id r))])
        | Ok false =>
            (Ok tt, tr' ++ [Print (failed ++ error_details result);
                            LogError (failed ++ error_details result)])
        | Raise e => (Raise e, tr')
        end
    | (Raise e, tr') => (Raise e, tr')
    end.
Proof.
  unfold process_row, bind, lift.
  destruct (add_comment _ _ _ _ _ _ _) as [[result|e] tr']; [|reflexivity].
  destruct (result_is_success result) as [[|]|e]; try reflexivity.
  unfold log_failure, bind, print, logging_error, emit, ret.
  now rewrite <- app_assoc.
Qed.

(** A null result is logged as a failure with no detail. *)
Lemma comment_row_null (text : pystr) :
  add_comment (applican_id r) (institution r) comment_data jwt base w tr
  = (Ok PNone, tr ++ [Http req; trouble text]) ->
  process_row jwt base r w tr
  = (Ok tt, tr ++ [Http req; trouble text; Print failed; LogError failed]).
Proof.
  intros Ha. rewrite comment_row_unfold, Ha. cbn [result_is_success py_truthy error_details].
  rewrite app_nil_r, <- app_assoc. reflexivity.
Qed.
End CommentFacts.

(** ** Transport failures *)

Lemma process_row_transport_failed {rt : PyRuntime}
    (jwt base : pystr) (r : row) (w : world) (tr : list event) (why : pystr) :
  has_text_key r ->
  server w (length (http_requests tr)) (occupation_request jwt base r) = TransportError why ->
  update_failed r tr (UpdateOccupation.process_row jwt base r w tr).
Proof.
  intros [key Hk] Hs.
  rewrite (process_row_transport jwt base r key w tr Hk why Hs).
  pose proof (logged_failure_intro
                (lit "Failed to update occupation for applicant " ++ py_str (applican_id r))
                [] tr
                [Print (py_str (UpdateOccupation.data r (PStr (pad_occupation_key key))));
                 Http (occupation_request jwt base r);
                 Print (lit "Error updating occupation for applicant "
                        ++ py_str (applican_id r) ++ lit ": " ++ why)] eq_refl) as H.
  rewrite app_nil_r, <- app_assoc in H. exact H.
Qed.

Lemma logged_success_log (message : pystr) (tr : list event)
    (out : completion unit * list event) :
  logged_success message tr out -> log_lines (snd out) = log_lines tr.
Proof.
  intros (_ & evs & -> & Hlog & _). now rewrite log_lines_app, Hlog, app_nil_r.
Qed.

Lemma logged_failure_log (start who : pystr) (tr : list event)
    (out : completion unit * list event) :
  logged_failure (start ++ who) tr out ->
  exists line, log_lines (snd out) = log_lines tr ++ [line]
               /\ str_contains who line = true.
Proof.
  intros (_ & evs & details & -> & Hlog & _).
  exists ((start ++ who) ++ details). split.
  - now rewrite log_lines_app, Hlog.
  - rewrite <- app_assoc. apply str_contains_app.
Qed.

(** C5: when the request raises a transport exception, [update_occupation]
    returns a failure object carrying the marker "RequestException" and the
    text of the exception, and the row is logged as a failure; [add_comment]
    returns [None], which its caller treats as a failure and logs with no
    detail after the applicant. *)
Theorem transport_failure_shapes {rt : PyRuntime}
    (jwt base : pystr) (r : row) (w : world) (tr : list event) (why : pystr) :
  (has_text_key r ->
   server w (length (http_requests tr)) (occupation_request jwt base r) = TransportError why ->
   fst (UpdateOccupation.update_occupation (applican_id r)
          (req_json (occupation_request jwt base r)) jwt base w tr)
   = Ok (PDict [ (lit "success", PBool false);
                 (lit "error_code", PStr (lit "RequestException"));
                 (lit "error_message", PStr why) ])
   /\ update_failed r tr (UpdateOccupation.process_row jwt base r w tr)
   /\ log_lines (snd (UpdateOccupation.process_row jwt base r w tr))
      = log_lines tr
        ++ [ lit "Failed to update occupation for applicant " ++ py_str (applican_id r) ])
  /\ (server w (length (http_requests tr)) (comment_request jwt base r) = TransportError why ->
      fst (AddComment.add_comment (applican_id r) (institution r) AddComment.comment_data
             jwt base w tr)
      = Ok PNone
      /\ comment_failed r tr (AddComment.process_row jwt base r w tr)
      /\ log_lines (snd (AddComment.process_row jwt base r w tr))
         = log_lines tr
           ++ [ lit "Failed to add comment for applicant: " ++ py_str (applican_id r) ]).
Proof.
  split.
  - intros [key Hk] Hs. split; [|split].
    + rewrite update_occupation_outcome. cbv zeta.
      change (server w (length (http_requests tr)) (occupation_request jwt base r)
              = TransportError why) in Hs.
      unfold occupation_request in Hs |- *. cbn [req_json]. now rewrite Hs.
    + apply process_row_transport_failed with (why := why); [now exists key|exact Hs].
    + rewrite (process_row_transport jwt base r key w tr Hk why Hs). cbn [snd].
      now rewrite log_lines_app.
  - intros Hs.
    pose proof (add_comment_transport jwt base r w tr why Hs) as Ha.
    split; [|split].
    + now rewrite Ha.
    + rewrite (comment_row_null jwt base r w tr why Ha).
      pose proof (logged_failure_intro
                    (lit "Failed to add comment for applicant: " ++ py_str (applican_id r))
                    [] tr
                    [Http (comment_request jwt base r);
                     Print (lit "Error adding comment for applicant " ++ py_str (applican_id r)
                            ++ lit ", institution " ++ py_str (institution r)
                            ++ lit ": " ++ why)] eq_refl) as H.
      rewrite app_nil_r, <- app_assoc in H. exact H.
    + rewrite (comment_row_null jwt base r w tr why Ha). cbn [snd].
      now rewrite log_lines_app.
Qed.

(** C5 on the example row, with a server that cannot be reached. *)
Lemma transport_failure_shapes_witness :
  @update_failed ascii_runtime example_row []
    (@UpdateOccupation.process_row ascii_runtime (lit "Bearer abc") (lit "https://cms.example")
       example_row
       (example_world [example_row] (fun _ => TransportError (lit "Connection refused")))
       []).
Proof.
  exact (proj1 (proj2 (proj1 (@transport_failure_shapes ascii_runtime (lit "Bearer abc")
                               (lit "https://cms.example") example_row
                               (example_world [example_row]
                                  (fun _ => TransportError (lit "Connection refused")))
                               [] (lit "Connection refused"))
                         (ex_intro _ (lit "7") eq_refl) eq_refl))).
Defined.

(** ** The error log *)

(** C6: a row answered with [code == "0"] is classified success and adds no
    line to the error log (its message is only printed); a row answered
    with another [code], or whose request raises a transport exception, is
    classified failure and adds one line to the error log, which contains
    the applicant identifier. *)
Theorem error_log_invariant {rt : PyRuntime}
    (jwt base : pystr) (r : row) (w : world) (tr : list event) :
  has_text_key r ->
  (forall resp d,
     server w (length (http_requests tr)) (occupation_request jwt base r) = Responded resp ->
     decoded resp = Json (PDict d) ->
     assoc (lit "code") d = Some (PStr (lit "0")) ->
     updated r tr (UpdateOccupation.process_row jwt base r w tr)
     /\ log_lines (snd (UpdateOccupation.process_row jwt base r w tr)) = log_lines tr)
  /\ (forall resp d,
        server w (length (http_requests tr)) (occupation_request jwt base r) = Responded resp ->
        decoded resp = Json (PDict d) ->
        assoc (lit "code") d <> Some (PStr (lit "0")) ->
        update_failed r tr (UpdateOccupation.process_row jwt base r w tr)
        /\ exists line,
             log_lines (snd (UpdateOccupation.process_row jwt base r w tr))
             = log_lines tr ++ [line]
             /\ str_contains (py_str (applican_id r)) line = true)
  /\ (forall why,
        server w (length (http_requests tr)) (occupation_request jwt base r)
        = TransportError why ->
        update_failed r tr (UpdateOccupation.process_row jwt base r w tr)
        /\ exists line,
             log_lines (snd (UpdateOccupation.process_row jwt base r w tr))
             = log_lines tr ++ [line]
             /\ str_contains (py_str (applican_id r)) line = true).
Proof.
  intros Hkey. split; [|split].
  - intros resp d Hs Hd Hc.
    pose proof (process_row_success jwt base r w tr resp Hkey Hs d Hd Hc) as H.
    split; [exact H|]. exact (logged_success_log _ _ _ H).
  - intros resp d Hs Hd Hc.
    pose proof (process_row_other_code jwt base r w tr resp Hkey Hs d Hd Hc) as H.
    split; [exact H|]. exact (logged_failure_log _ _ _ _ H).
  - intros why Hs.
    pose proof (process_row_transport_failed jwt base r w tr why Hkey Hs) as H.
    split; [exact H|]. exact (logged_failure_log _ _ _ _ H).
Qed.

(** C6 on the example row answered with [{code: "0"}]: the log stays empty. *)
Lemma error_log_invariant_witness :
  log_lines
    (snd (@UpdateOccupation.process_row ascii_runtime (lit "Bearer abc")
            (lit "https://cms.example") example_row
            (example_world [example_row]
               (fun _ => Responded (code_zero_response 200 (lit "OK"))))
            []))
  = [].
Proof.
  exact (proj2 (proj1 (@error_log_invariant ascii_runtime (lit "Bearer abc")
                         (lit "https://cms.example") example_row
                         (example_world [example_row]
                            (fun _ => Responded (code_zero_response 200 (lit "OK"))))
                         [] (ex_intro _ (lit "7") eq_refl))
                        (code_zero_response 200 (lit "OK"))
                        [ (lit "code", PStr (lit "0")) ] eq_refl eq_refl eq_refl)).
Defined.

(** ** The HTTP status in the two scripts *)

Lemma raises_for_status_range (status : Z) :
  raises_for_status status = true <-> (400 <= status < 600)%Z.
Proof.
  unfold raises_for_status.
  rewrite orb_true_iff, !andb_true_iff, !Z.leb_le, !Z.ltb_lt. lia.
Qed.

Lemma comment_row_refused {rt : PyRuntime}
    (jwt base : pystr) (r : row) (w : world) (tr : list event) (resp : response) :
  server w (length (http_requests tr)) (comment_request jwt base r) = Responded resp ->
  (400 <= status_code resp < 600)%Z ->
  comment_failed r tr (AddComment.process_row jwt base r w tr).
Proof.
  intros Hs Hst. apply raises_for_status_range in Hst.
  destruct (add_comment_refused jwt base r w tr resp Hs Hst) as [text Ha].
  rewrite (comment_row_null jwt base r w tr text Ha).
  pose proof (logged_failure_intro
                (lit "Failed to add comment for applicant: " ++ py_str (applican_id r))
                [] tr
                [Http (comment_request jwt base r);
                 Print (lit "Error adding comment for applicant " ++ py_str (applican_id r)
                        ++ lit ", institution " ++ py_str (institution r)
                        ++ lit ": " ++ text)] eq_refl) as H.
  rewrite app_nil_r, <- app_assoc in H. exact H.
Qed.

Lemma comment_row_accepted {rt : PyRuntime}
    (jwt base : pystr) (r : row) (w : world) (tr : list event) (resp : response)
    (d : list (pystr * pyval)) :
  server w (length (http_requests tr)) (comment_request jwt base r) = Responded resp ->
  ~ (400 <= status_code resp < 600)%Z ->
  decoded resp = Json (PDict d) ->
  assoc (lit "code") d = Some (PStr (lit "0")) ->
  commented r tr (AddComment.process_row jwt base r w tr).
Proof.
  intros Hs Hst Hd Hc.
  assert (Hf : raises_for_status (status_code resp) = false).
  { destruct (raises_for_status (status_code resp)) eqn:E; [|reflexivity].
    apply raises_for_status_range in E. contradiction. }
  rewrite comment_row_unfold, (add_comment_json jwt base r w tr resp _ Hs Hf Hd).
  rewrite (proj2 (result_is_success_true (PDict d))) by eauto.
  apply logged_success_intro. reflexivity.
Qed.

(** C10, as the code has it: [raise_for_status] raises on a 4xx or 5xx
    status only.  The comment adder classifies every answer with such a
    status as a failure whatever its body, and classifies an answer with
    any other status by its body; the updater never looks at the status.
    So a 4xx or 5xx answer whose body is a JSON object with [code] "0" is a
    success for the updater and a failure for the comment adder. *)
Theorem status_handling_differs {rt : PyRuntime}
    (jwt base : pystr) (r : row) (w : world) (tr : list event) (resp : response) :
  (server w (length (http_requests tr)) (comment_request jwt base r) = Responded resp ->
   (400 <= status_code resp < 600)%Z ->
   comment_failed r tr (AddComment.process_row jwt base r w tr))
  /\ (forall d,
        server w (length (http_requests tr)) (comment_request jwt base r) = Responded resp ->
        ~ (400 <= status_code resp < 600)%Z ->
        decoded resp = Json (PDict d) ->
        assoc (lit "code") d = Some (PStr (lit "0")) ->
        commented r tr (AddComment.process_row jwt base r w tr))
  /\ (forall d,
        has_text_key r ->
        server w (length (http_requests tr)) (occupation_request jwt base r) = Responded resp ->
        decoded resp = Json (PDict d) ->
        assoc (lit "code") d = Some (PStr (lit "0")) ->
        updated r tr (UpdateOccupation.process_row jwt base r w tr)).
Proof.
  split; [|split].
  - apply comment_row_refused.
  - intros d. apply comment_row_accepted.
  - intros d Hkey Hs Hd Hc. exact (process_row_success jwt base r w tr resp Hkey Hs d Hd Hc).
Qed.

(** C10 on the example row: a 500 answer carrying [{code: "0"}] fails in
    the comment adder. *)
Lemma status_handling_differs_witness :
  @comment_failed ascii_runtime example_row []
    (@AddComment.process_row ascii_runtime (lit "Bearer abc") (lit "https://cms.example")
       example_row
       (example_world [example_row]
          (fun _ => Responded (code_zero_response 500 (lit "Internal Server Error"))))
       []).
Proof.
  apply (proj1 (@status_handling_differs ascii_runtime (lit "Bearer abc")
                  (lit "https://cms.example") example_row
                  (example_world [example_row]
                     (fun _ => Responded (code_zero_response 500 (lit "Internal Server Error"))))
                  [] (code_zero_response 500 (lit "Internal Server Error")))).
  - reflexivity.
  - simpl. lia.
Defined.

(** C10 as stated fails: a 300 answer is not 2xx, [raise_for_status] lets
    it pass, and with the body [{code: "0"}] the comment adder classifies
    the row success. *)
Lemma comment_accepts_non_2xx :
  let out :=
    @AddComment.process_row ascii_runtime (lit "Bearer abc") (lit "https://cms.example")
      example_row
      (example_world [example_row]
         (fun _ => Responded (code_zero_response 300 (lit "Multiple Choices"))))
      [] in
  is_2xx (status_code (code_zero_response 300 (lit "Multiple Choices"))) = false
  /\ fst out = Ok tt
  /\ printed (snd out) = [ lit "Successfully add comment for applicant A1" ]
  /\ log_lines (snd out) = [].
Proof. vm_compute. repeat split. Qed.

(** ** Loading the configuration *)

Ltac run_config :=
  unfold read_config, read_config_body, ConfigParser_read, try_except, bind, ret, raise,
    lift, ask, throw.

Lemma read_config_trace (w : world) (tr : list event) :
  read_config w tr = (fst (read_config w []), tr).
Proof.
  run_config. destruct (config_file w) as [|why|c]; try reflexivity. cbn.
  destruct (assoc (lit "Authorization") c) as [auth|]; [|reflexivity].
  destruct (assoc (lit "jwt_token") auth) as [[token|why]|]; try reflexivity.
  destruct (assoc (lit "API") c) as [api|]; [|reflexivity].
  destruct (assoc (lit "base_url") api) as [[url0|why]|]; reflexivity.
Qed.

(** The body of the [try] never raises [FileNotFoundError]. *)
Lemma read_config_body_raises (w : world) (tr tr' : list event) (e : exn) :
  read_config_body w tr = (Raise e, tr') ->
  exn_cls e = ConfigParserError \/ exn_cls e = ValueError.
Proof.
  unfold read_config_body, ConfigParser_read, bind, ret, raise, lift, ask, throw.
  destruct (config_file w) as [|why|c]; cbn.
  - intros H. injection H as <- _. now right.
  - intros H. injection H as <- _. now left.
  - destruct (assoc (lit "Authorization") c) as [auth|];
      [|intros H; injection H as <- _; now right].
    destruct (assoc (lit "jwt_token") auth) as [[token|why]|];
      [|intros H; injection H as <- _; now left
       |intros H; injection H as <- _; now right].
    destruct (assoc (lit "API") c) as [api|];
      [|intros H; injection H as <- _; now right].
    destruct (assoc (lit "base_url") api) as [[url0|why]|];
      [discriminate
      |intros H; injection H as <- _; now left
      |intros H; injection H as <- _; now right].
Qed.

Lemma read_config_raises (w : world) (tr tr' : list event) (e : exn) :
  read_config w tr = (Raise e, tr') ->
  exn_cls e = Exception_
  /\ starts_with (lit "Error reading configuration: ") (exn_text e) = true.
Proof.
  unfold read_config, try_except.
  destruct (read_config_body w tr) as [[cfg|e0] tr0] eqn:Hb; [discriminate|].
  destruct (read_config_body_raises w tr tr0 e0 Hb) as [Hc|Hc]; rewrite Hc;
    cbn [find catches fst snd exn_class_eqb];
    unfold raise, lift, throw; intros H; injection H as <- _; cbn [exn_cls exn_text];
    (split; [reflexivity
           |exact (starts_with_app (lit "Error reading configuration: ") (exn_text e0))]).
Qed.

Lemma read_config_absent (w : world) (tr : list event) :
  config_file w = Absent ->
  read_config w tr
  = (throw Exception_
       (lit "Error reading configuration: Authorization section not found in config file"),
     tr).
Proof. intros Hf. run_config. rewrite Hf. reflexivity. Qed.

Lemma read_config_no_authorization (w : world) (tr : list event) :
  authorization_missing w ->
  read_config w tr
  = (throw Exception_
       (lit "Error reading configuration: Authorization section not found in config file"),
     tr).
Proof. intros (c & Hf & Ha). run_config. rewrite Hf. cbn. rewrite Ha. reflexivity. Qed.

Lemma read_config_incomplete (w : world) :
  config_incomplete w -> exists e, fst (read_config w []) = Raise e.
Proof.
  intros [Hf|(c & Hf & H)]; run_config; rewrite Hf; cbn; [eauto|].
  destruct (assoc (lit "Authorization") c) as [auth|] eqn:Ha; [|cbn; eauto].
  destruct (assoc (lit "jwt_token") auth) as [[token|why]|] eqn:Hj; try (cbn; eauto).
  destruct (assoc (lit "API") c) as [api|] eqn:Hp; [|cbn; eauto].
  destruct (assoc (lit "base_url") api) as [[url0|why]|] eqn:Hu; try (cbn; eauto).
  destruct H as [H|[H|[(s & H1 & H2)|(s & H1 & H2)]]]; congruence.
Qed.

Section MainFacts.
Context {rt : PyRuntime}.

(** When the configuration does not load, [main] of the updater reports
    it on the console and in the log, and stops. *)
Lemma update_main_config_failure (w : world) (e : exn) :
  fst (read_config w []) = Raise e ->
  UpdateOccupation.main w []
  = (Ok tt,
     [ LogOpened (lit "log/occupation_update_errors_" ++ now w ++ lit ".log");
       Print (lit "Error in main process: " ++ exn_text e);
       LogError (lit "Error in main process: " ++ exn_text e) ]).
Proof.
  intros He. unfold UpdateOccupation.main, UpdateOccupation.setup_logging,
    UpdateOccupation.log_error, try_except, bind, ret, ask, emit, print, logging_error.
  cbn [app]. rewrite read_config_trace, He. reflexivity.
Qed.

(** The comment adder only prints it. *)
Lemma comment_main_config_failure (w : world) (e : exn) :
  fst (read_config w []) = Raise e ->
  AddComment.main w []
  = (Ok tt,
     [ LogOpened (lit "log/add_comment_errors_" ++ now w ++ lit ".log");
       Print (lit "Error in main process: " ++ exn_text e) ]).
Proof.
  intros He. unfold AddComment.main, AddComment.setup_logging,
    try_except, bind, ret, ask, emit, print.
  cbn [app]. rewrite read_config_trace, He. reflexivity.
Qed.
End MainFacts.

(** C7: when the configuration cannot be loaded (the file is absent, a
    section is absent, or a key is absent from its section) the run stops
    with one fatal error before any row is processed, and sends no HTTP
    request; when the [Authorization] section is missing the error
    mentions "Authorization section not found". *)
Theorem config_failure_is_fatal {rt : PyRuntime} (w : world) :
  config_incomplete w ->
  exists message,
    UpdateOccupation.main w []
    = (Ok tt,
       [ LogOpened (lit "log/occupation_update_errors_" ++ now w ++ lit ".log");
         Print message; LogError message ])
    /\ AddComment.main w []
       = (Ok tt,
          [ LogOpened (lit "log/add_comment_errors_" ++ now w ++ lit ".log");
            Print message ])
    /\ http_requests (snd (UpdateOccupation.main w [])) = []
    /\ http_requests (snd (AddComment.main w [])) = []
    /\ starts_with (lit "Error in main process: Error reading configuration: ") message = true
    /\ (authorization_missing w ->
        str_contains (lit "Authorization section not found") message = true).
Proof.
  intros Hc. destruct (read_config_incomplete w Hc) as [e He].
  exists (lit "Error in main process: " ++ exn_text e).
  rewrite (update_main_config_failure w e He), (comment_main_config_failure w e He).
  repeat split.
  - assert (Hr : read_config w [] = (Raise e, [])) by (now rewrite read_config_trace, He).
    destruct (read_config_raises w [] [] e Hr) as [_ Hs].
    destruct (starts_with_inv _ _ Hs) as [rest ->].
    exact (starts_with_app
             (lit "Error in main process: Error reading configuration: ") rest).
  - intros Ha. pose proof (read_config_no_authorization w [] Ha) as Hr.
    rewrite Hr in He. injection He as <-. reflexivity.
Qed.

(** C7 on a configuration file without an [Authorization] section. *)
Lemma config_failure_is_fatal_witness :
  exists message,
    @UpdateOccupation.main ascii_runtime world_without_authorization []
    = (Ok tt,
       [ LogOpened (lit "log/occupation_update_errors_20250101_120000.log");
         Print message; LogError message ])
    /\ str_contains (lit "Authorization section not found") message = true.
Proof.
  assert (Ha : authorization_missing world_without_authorization)
    by (eexists; split; reflexivity).
  destruct (@config_failure_is_fatal ascii_runtime world_without_authorization
              (or_intror (ex_intro _ _ (conj eq_refl (or_introl eq_refl)))))
    as (message & Hu & _ & _ & _ & _ & Hm).
  exists message. split; [exact Hu|exact (Hm Ha)].
Defined.

(** C9: with no configuration file, [ConfigParser.read] leaves the parser
    empty instead of raising, so [read_config] fails with "Authorization
    section not found in config file", wrapped as an error of reading the
    configuration; nothing in [read_config] raises [FileNotFoundError], so
    its handler for that exception never runs; both scripts stop without
    any HTTP request, and the error they report does not say that the file
    was not found. *)
Theorem absent_config_reported_as_missing_section {rt : PyRuntime} (w : world) :
  config_file w = Absent ->
  (forall tr,
     read_config w tr
     = (Raise {| exn_cls := Exception_;
                 exn_text := lit "Error reading configuration: Authorization section not found in config file" |},
        tr))
  /\ (forall w' tr tr' e,
        read_config_body w' tr = (Raise e, tr') -> exn_cls e <> FileNotFoundError)
  /\ (forall w' tr tr' e,
        read_config w' tr = (Raise e, tr') -> exn_cls e <> FileNotFoundError)
  /\ UpdateOccupation.main w []
     = (Ok tt,
        [ LogOpened (lit "log/occupation_update_errors_" ++ now w ++ lit ".log");
          Print (lit "Error in main process: Error reading configuration: Authorization section not found in config file");
          LogError (lit "Error in main process: Error reading configuration: Authorization section not found in config file") ])
  /\ AddComment.main w []
     = (Ok tt,
        [ LogOpened (lit "log/add_comment_errors_" ++ now w ++ lit ".log");
          Print (lit "Error in main process: Error reading configuration: Authorization section not found in config file") ])
  /\ http_requests (snd (UpdateOccupation.main w [])) = []
  /\ http_requests (snd (AddComment.main w [])) = []
  /\ str_contains (lit "Config file not found")
       (lit "Error in main process: Error reading configuration: Authorization section not found in config file")
     = false.
Proof.
  intros Hf.
  assert (He : fst (read_config w [])
               = Raise {| exn_cls := Exception_;
                          exn_text := lit "Error reading configuration: Authorization section not found in config file" |})
    by (now rewrite (read_config_absent w [] Hf)).
  rewrite (update_main_config_failure w _ He), (comment_main_config_failure w _ He).
  repeat split.
  - intros tr. now rewrite (read_config_absent w tr Hf).
  - intros w' tr tr' e H. destruct (read_config_body_raises w' tr tr' e H) as [-> | ->];
      discriminate.
  - intros w' tr tr' e H. destruct (read_config_raises w' tr tr' e H) as [-> _].
    discriminate.
Qed.

(** C9 on a world with no configuration file. *)
Lemma absent_config_reported_as_missing_section_witness :
  http_requests (snd (@UpdateOccupation.main ascii_runtime world_without_config [])) = []
  /\ http_requests (snd (@AddComment.main ascii_runtime world_without_config [])) = [].
Proof.
  destruct (@absent_config_reported_as_missing_section ascii_runtime world_without_config
              eq_refl) as (_ & _ & _ & _ & _ & Hu & Hc & _).
  split; [exact Hu|exact Hc].
Defined.

(** ** The loop over the rows *)

Section Loop.
Context {rt : PyRuntime}.
Import UpdateOccupation.

Variables (jwt base : pystr) (w : world).

Lemma row_alone_requests (r : row) (o : http_outcome) :
  has_text_key r ->
  http_requests (row_alone jwt base w r o) = [occupation_request jwt base r].
Proof.
  intros [key Hk]. unfold row_alone, row_run.
  now rewrite (process_row_requests jwt base r key _ [] Hk).
Qed.

Lemma row_run_completes (r : row) (o : http_outcome) :
  has_text_key r -> per_row_outcome o -> fst (row_run jwt base w r o) = Ok tt.
Proof.
  intros [key Hk] Ho. unfold row_run. destruct o as [resp|why].
  - rewrite (process_row_responded jwt base r key
               (with_server w (fun _ _ => Responded resp)) [] Hk resp eq_refl). cbv zeta.
    unfold per_row_outcome in Ho. destruct (decoded resp) as [v|why].
    + destruct v; try contradiction. rewrite result_is_success_dict.
      destruct (match assoc (lit "code") d with Some c => py_eq_str c (lit "0") | None => false end);
        reflexivity.
    + unfold not_json_result at 1. now rewrite result_is_success_other_code by discriminate.
  - now rewrite (process_row_transport jwt base r key
                   (with_server w (fun _ _ => TransportError why)) [] Hk why eq_refl).
Qed.

Lemma rows_alone_requests (rows : list row) (n : nat) :
  Forall has_text_key rows ->
  http_requests (rows_alone jwt base w n rows) = map (occupation_request jwt base) rows.
Proof.
  intros Hrows. revert n. induction Hrows as [|r rows Hr _ IH]; intros n; [reflexivity|].
  cbn [rows_alone map]. now rewrite http_requests_app, row_alone_requests, IH.
Qed.

(** Every row is processed, each as if it were alone. *)
Lemma for_each_row (rows : list row) (tr : list event) :
  Forall has_text_key rows ->
  (forall n req, per_row_outcome (server w n req)) ->
  for_each rows (process_row jwt base) w tr
  = (Ok tt, tr ++ rows_alone jwt base w (length (http_requests tr)) rows).
Proof.
  intros Hrows Hsrv. revert tr.
  induction Hrows as [|r rows Hr _ IH]; intros tr.
  - cbn. now rewrite app_nil_r.
  - cbn [for_each rows_alone]. unfold bind at 1.
    rewrite (process_row_frame jwt base r w tr Hr).
    rewrite (row_run_completes r _ Hr (Hsrv _ _)).
    rewrite IH, http_requests_app, length_app, row_alone_requests by assumption.
    cbn [length]. rewrite Nat.add_1_r, <- app_assoc. reflexivity.
Qed.
End Loop.

(** C4, as the code has it, for a table whose occupation keys are all
    text: whatever failures the rows meet (a transport error, a body that is
    not JSON, a response code other than "0"), the run goes through every
    row and ends normally; each row does exactly what it would do alone
    against its own answer, so no row changes what a later row does; and
    the run sends exactly one request per row, in the order of the rows. *)
Theorem rows_are_independent {rt : PyRuntime}
    (w : world) (cfg : configuration) (rows : list row) :
  fst (read_config w []) = Ok cfg ->
  csv_file w = Parsed rows ->
  Forall has_text_key rows ->
  (forall n req, per_row_outcome (server w n req)) ->
  UpdateOccupation.main w []
  = (Ok tt,
     [ LogOpened (lit "log/occupation_update_errors_" ++ now w ++ lit ".log") ]
     ++ rows_alone (jwt_token cfg) (api_base_url cfg) w 0 rows
     ++ [ Print (lit "Process completed. Log file for errors: "
                 ++ lit "log/occupation_update_errors_" ++ now w ++ lit ".log") ])
  /\ http_requests (snd (UpdateOccupation.main w []))
     = map (occupation_request (jwt_token cfg) (api_base_url cfg)) rows.
Proof.
  intros Hcfg Hcsv Hrows Hsrv.
  assert (Hmain : UpdateOccupation.main w []
    = (Ok tt,
       [ LogOpened (lit "log/occupation_update_errors_" ++ now w ++ lit ".log") ]
       ++ rows_alone (jwt_token cfg) (api_base_url cfg) w 0 rows
       ++ [ Print (lit "Process completed. Log file for errors: "
                   ++ lit "log/occupation_update_errors_" ++ now w ++ lit ".log") ])).
  { unfold UpdateOccupation.main, UpdateOccupation.setup_logging, try_except.
    unfold bind at 1 2 3 4 5 6. unfold ask, emit, ret. cbn [app].
    rewrite read_config_trace, Hcfg.
    unfold read_csv_data, try_except, bind, ask, ret. rewrite Hcsv.
    rewrite (for_each_row _ _ w rows _ Hrows Hsrv).
    unfold print, emit. cbn [http_requests flat_map app length].
    reflexivity. }
  split; [exact Hmain|].
  rewrite Hmain. cbn [snd]. rewrite !http_requests_app.
  rewrite (rows_alone_requests _ _ w rows 0 Hrows). cbn. now rewrite app_nil_r.
Qed.

(** C4 as stated fails: "for every input dataset" includes a table with an
    empty occupation cell.  Here every request is answered with code "0",
    yet the run stops at the second row, whose cell is empty: of the three
    rows only the first gets a request, and the log holds the fatal error. *)
Lemma blank_cell_ends_run :
  let out :=
    @UpdateOccupation.main ascii_runtime
      (example_world [example_row; row_with_empty_key; example_row]
         (fun _ => Responded (code_zero_response 200 (lit "OK"))))
      [] in
  map req_url (http_requests (snd out))
  = [ lit "https://cms.example/cms/v2/applicants/A1/occupation" ]
  /\ log_lines (snd out)
     = [ lit "Error in main process: 'float' object has no attribute 'isdigit'" ]
  /\ ~ In (Print (lit "Process completed. Log file for errors: log/occupation_update_errors_20250101_120000.log"))
         (snd out).
Proof.
  vm_compute. repeat split.
  intros H. repeat (destruct H as [H|H]; [discriminate|]). exact H.
Qed.

(** C4 on three rows whose requests fail in three ways: the run still
    sends the three requests, in order. *)
Lemma rows_are_independent_witness :
  http_requests
    (snd (@UpdateOccupation.main ascii_runtime (example_world three_rows failing_answers) []))
  = map (@occupation_request ascii_runtime (lit "Bearer abc") (lit "https://cms.example"))
      three_rows.
Proof.
  refine (proj2 (@rows_are_independent ascii_runtime
                   (example_world three_rows failing_answers)
                   {| jwt_token := lit "Bearer abc"; api_base_url := lit "https://cms.example" |}
                   three_rows eq_refl eq_refl _ _)).
  - repeat constructor; eexists; reflexivity.
  - intros [|[|n]] req; exact I.
Defined.

(** * Further properties of the scripts *)

(** ** Loading the configuration and the table *)

(** X1: [read_config] succeeds exactly when the file parses, holds both
    sections with their keys, and reading each of the two keys gives a
    value (no interpolation error, as a bare '%' would raise); it then
    returns the two values as the parser gives them, after interpolation,
    and it never prints, logs or sends anything. *)
Theorem read_config_loads_iff (w : world) (tr : list event) (cfg : configuration) :
  (fst (read_config w tr) = Ok cfg
   <-> exists c authorization api,
         config_file w = Parsed c
         /\ assoc (lit "Authorization") c = Some authorization
         /\ assoc (lit "jwt_token") authorization = Some (Value (jwt_token cfg))
         /\ assoc (lit "API") c = Some api
         /\ assoc (lit "base_url") api = Some (Value (api_base_url cfg)))
  /\ snd (read_config w tr) = tr.
Proof.
  split; [|now rewrite read_config_trace].
  run_config. destruct (config_file w) as [|why|c]; cbn.
  - split; [discriminate|]. intros (c & a & p & H & _). discriminate.
  - split; [discriminate|]. intros (c & a & p & H & _). discriminate.
  - destruct (assoc (lit "Authorization") c) as [auth|] eqn:Ha; cbn;
      [|split; [discriminate|];
        intros (c' & a' & p' & Hc & Ha' & _); injection Hc as <-; congruence].
    destruct (assoc (lit "jwt_token") auth) as [[token|why]|] eqn:Hj; cbn;
      try (split; [discriminate|];
           intros (c' & a' & p' & Hc & Ha' & Hj' & _); injection Hc as <-; congruence).
    destruct (assoc (lit "API") c) as [api|] eqn:Hp; cbn;
      [|split; [discriminate|];
        intros (c' & a' & p' & Hc & _ & _ & Hp' & _); injection Hc as <-; congruence].
    destruct (assoc (lit "base_url") api) as [[url0|why]|] eqn:Hu; cbn;
      try (split; [discriminate|];
           intros (c' & a' & p' & Hc & _ & _ & Hp' & Hu'); injection Hc as <-; congruence).
    split.
    + intros H. injection H as <-. exists c, auth, api. cbn. auto.
    + intros (c' & a' & p' & Hc & Ha' & Hj' & Hp' & Hu').
      injection Hc as <-. destruct cfg as [t b]. cbn in *. congruence.
Qed.

(** X2: on a file that parses, [read_config] reports the first thing that
    goes wrong in the order of its lines: the [Authorization] section is
    missing, its [jwt_token] key is missing, reading that key raises, the
    [API] section is missing, its [base_url] key is missing, reading that
    key raises; each as an [Exception] whose text starts "Error reading
    configuration: ". *)
Theorem read_config_reports_first_missing (w : world) (c : ini) (tr : list event) :
  config_file w = Parsed c ->
  (assoc (lit "Authorization") c = None ->
   read_config w tr
   = (throw Exception_
        (lit "Error reading configuration: Authorization section not found in config file"),
      tr))
  /\ (forall authorization,
        assoc (lit "Authorization") c = Some authorization ->
        assoc (lit "jwt_token") authorization = None ->
        read_config w tr
        = (throw Exception_
             (lit "Error reading configuration: jwt_token key not found in Authorization section"),
           tr))
  /\ (forall authorization why,
        assoc (lit "Authorization") c = Some authorization ->
        assoc (lit "jwt_token") authorization = Some (BadValue why) ->
        read_config w tr
        = (throw Exception_ (lit "Error reading configuration: " ++ why), tr))
  /\ (forall authorization token,
        assoc (lit "Authorization") c = Some authorization ->
        assoc (lit "jwt_token") authorization = Some (Value token) ->
        assoc (lit "API") c = None ->
        read_config w tr
        = (throw Exception_
             (lit "Error reading configuration: API section not found in config file"),
           tr))
  /\ (forall authorization token api,
        assoc (lit "Authorization") c = Some authorization ->
        assoc (lit "jwt_token") authorization = Some (Value token) ->
        assoc (lit "API") c = Some api ->
        assoc (lit "base_url") api = None ->
        read_config w tr
        = (throw Exception_
             (lit "Error reading configuration: base_url key not found in API section"),
           tr))
  /\ (forall authorization token api why,
        assoc (lit "Authorization") c = Some authorization ->
        assoc (lit "jwt_token") authorization = Some (Value token) ->
        assoc (lit "API") c = Some api ->
        assoc (lit "base_url") api = Some (BadValue why) ->
        read_config w tr
        = (throw Exception_ (lit "Error reading configuration: " ++ why), tr)).
Proof.
  intros Hf. repeat split.
  - intros Ha. run_config. rewrite Hf. cbn. rewrite Ha. reflexivity.
  - intros a Ha Hj. run_config. rewrite Hf. cbn. rewrite Ha, Hj. reflexivity.
  - intros a why Ha Hj. run_config. rewrite Hf. cbn. rewrite Ha, Hj. reflexivity.
  - intros a t Ha Hj Hp. run_config. rewrite Hf. cbn. rewrite Ha, Hj, Hp. reflexivity.
  - intros a t p Ha Hj Hp Hu. run_config. rewrite Hf. cbn. rewrite Ha, Hj, Hp, Hu.
    reflexivity.
  - intros a t p why Ha Hj Hp Hu. run_config. rewrite Hf. cbn. rewrite Ha, Hj, Hp, Hu.
    reflexivity.
Qed.

(** X2 on a file whose [jwt_token] holds a bare '%' and which has no [API]
    section: the interpolation error is what is reported. *)
Lemma read_config_reports_first_missing_witness :
  read_config world_with_bad_token []
  = (throw Exception_
       (lit "Error reading configuration: '%' must be followed by '%' or '(', found: '%def'"),
     []).
Proof.
  exact (proj1 (proj2 (proj2
    (read_config_reports_first_missing world_with_bad_token
       [ (lit "Authorization",
          [ (lit "jwt_token",
             BadValue (lit "'%' must be followed by '%' or '(', found: '%def'")) ]) ]
       [] eq_refl)))
    [ (lit "jwt_token", BadValue (lit "'%' must be followed by '%' or '(', found: '%def'")) ]
    (lit "'%' must be followed by '%' or '(', found: '%def'") eq_refl eq_refl).
Defined.

Lemma read_config_malformed (w : world) (why : pystr) (tr : list event) :
  config_file w = Malformed why ->
  read_config w tr = (throw Exception_ (lit "Error reading configuration: " ++ why), tr).
Proof. intros Hf. run_config. rewrite Hf. reflexivity. Qed.

(** X3: a configuration file that cannot be parsed is reported with the
    parser's text after "Error reading configuration: "; both scripts then
    stop with no HTTP request, the updater writing the error to the log and
    to the console, the comment adder to the console only. *)
Theorem malformed_config_is_fatal {rt : PyRuntime} (w : world) (why : pystr) :
  config_file w = Malformed why ->
  (forall tr,
     read_config w tr
     = (Raise {| exn_cls := Exception_;
                 exn_text := lit "Error reading configuration: " ++ why |}, tr))
  /\ UpdateOccupation.main w []
     = (Ok tt,
        [ LogOpened (lit "log/occupation_update_errors_" ++ now w ++ lit ".log");
          Print (lit "Error in main process: " ++ lit "Error reading configuration: " ++ why);
          LogError (lit "Error in main process: " ++ lit "Error reading configuration: " ++ why) ])
  /\ AddComment.main w []
     = (Ok tt,
        [ LogOpened (lit "log/add_comment_errors_" ++ now w ++ lit ".log");
          Print (lit "Error in main process: " ++ lit "Error reading configuration: " ++ why) ]).
Proof.
  intros Hf.
  assert (He : fst (read_config w [])
               = Raise {| exn_cls := Exception_;
                          exn_text := lit "Error reading configuration: " ++ why |})
    by (now rewrite (read_config_malformed w why [] Hf)).
  rewrite (update_main_config_failure w _ He), (comment_main_config_failure w _ He).
  repeat split. intros tr. now rewrite (read_config_malformed w why tr Hf).
Qed.

(** X3 on a file without section headers. *)
Lemma malformed_config_is_fatal_witness :
  @AddComment.main ascii_runtime world_with_malformed_config []
  = (Ok tt,
     [ LogOpened (lit "log/add_comment_errors_20250101_120000.log");
       Print (lit "Error in main process: Error reading configuration: File contains no section headers.") ]).
Proof.
  exact (proj2 (proj2 (@malformed_config_is_fatal ascii_runtime world_with_malformed_config
                         (lit "File contains no section headers.") eq_refl))).
Defined.

Section TableFacts.
Context {rt : PyRuntime}.

Variables (w : world) (cfg : configuration).
Hypothesis Hcfg : fst (read_config w []) = Ok cfg.

(** What [main] of the updater does once the configuration is loaded. *)
Lemma update_main_loaded :
  UpdateOccupation.main w []
  = let opened := [ LogOpened (lit "log/occupation_update_errors_" ++ now w ++ lit ".log") ] in
    match read_csv_data w opened with
    | (Ok df, tr) =>
        match for_each df (UpdateOccupation.process_row (jwt_token cfg) (api_base_url cfg))
                w tr with
        | (Ok _, tr') =>
            (Ok tt,
             tr' ++ [ Print (lit "Process completed. Log file for errors: "
                             ++ lit "log/occupation_update_errors_" ++ now w ++ lit ".log") ])
        | (Raise e, tr') =>
            (Ok tt, tr' ++ [ Print (lit "Error in main process: " ++ exn_text e);
                             LogError (lit "Error in main process: " ++ exn_text e) ])
        end
    | (Raise e, tr) =>
        (Ok tt, tr ++ [ Print (lit "Error in main process: " ++ exn_text e);
                        LogError (lit "Error in main process: " ++ exn_text e) ])
    end.
Proof.
  unfold UpdateOccupation.main, UpdateOccupation.setup_logging, try_except.
  unfold bind at 1 2 3 4 5 6. unfold ask, emit, ret. cbn [app].
  rewrite read_config_trace, Hcfg. cbv zeta.
  destruct (read_csv_data w _) as [[df|e] tr].
  - destruct (for_each df _ w tr) as [[[]|e] tr'].
    + reflexivity.
    + cbn [find catches fst snd]. unfold UpdateOccupation.log_error, bind, print,
        logging_error, emit. now rewrite <- app_assoc.
  - cbn [find catches fst snd]. unfold UpdateOccupation.log_error, bind, print,
      logging_error, emit. now rewrite <- app_assoc.
Qed.

(** What [main] of the comment adder does once the configuration is loaded. *)
Lemma comment_main_loaded :
  AddComment.main w []
  = let opened := [ LogOpened (lit "log/add_comment_errors_" ++ now w ++ lit ".log") ] in
    match read_csv_data w opened with
    | (Ok df, tr) =>
        match for_each df (AddComment.process_row (jwt_token cfg) (api_base_url cfg))
                w tr with
        | (Ok _, tr') => (Ok tt, tr')
        | (Raise e, tr') =>
            (Ok tt, tr' ++ [ Print (lit "Error in main process: " ++ exn_text e) ])
        end
    | (Raise e, tr) =>
        (Ok tt, tr ++ [ Print (lit "Error in main process: " ++ exn_text e) ])
    end.
Proof.
  unfold AddComment.main, AddComment.setup_logging, try_except.
  unfold bind at 1 2 3 4 5. unfold ask, emit, ret. cbn [app].
  rewrite read_config_trace, Hcfg. cbv zeta.
  destruct (read_csv_data w _) as [[df|e] tr].
  - destruct (for_each df _ w tr) as [[[]|e] tr']; reflexivity.
  - reflexivity.
Qed.
End TableFacts.

Lemma read_csv_data_parsed (w : world) (rows : list row) (tr : list event) :
  csv_file w = Parsed rows -> read_csv_data w tr = (Ok rows, tr).
Proof.
  intros Hc. unfold read_csv_data, try_except, bind, ask, ret. now rewrite Hc.
Qed.

Lemma read_csv_data_failure (w : world) :
  csv_file w = Absent \/ (exists why, csv_file w = Malformed why) ->
  exists text,
    (forall tr,
       read_csv_data w tr = (throw Exception_ (lit "Error reading CSV file: " ++ text), tr))
    /\ (forall why, csv_file w = Malformed why -> text = why).
Proof.
  intros [Hc|[why Hc]].
  - eexists. split.
    + intros tr. unfold read_csv_data, try_except, bind, ask, ret, raise, lift.
      rewrite Hc. reflexivity.
    + intros why H. congruence.
  - exists why. split.
    + intros tr. unfold read_csv_data, try_except, bind, ask, ret, raise, lift.
      rewrite Hc. reflexivity.
    + intros why' H. congruence.
Qed.

(** X4: when the table cannot be read (the file is absent or cannot be
    parsed) both scripts stop before any row with one error, "Error in main
    process: Error reading CSV file: ..." (the parser's text for a file that
    does not parse), and send no HTTP request; the updater writes it to the
    console and to the error log, the comment adder to the console only. *)
Theorem dataset_failure_is_fatal {rt : PyRuntime} (w : world) (cfg : configuration) :
  fst (read_config w []) = Ok cfg ->
  csv_file w = Absent \/ (exists why, csv_file w = Malformed why) ->
  exists text,
    UpdateOccupation.main w []
    = (Ok tt,
       [ LogOpened (lit "log/occupation_update_errors_" ++ now w ++ lit ".log");
         Print (lit "Error in main process: " ++ lit "Error reading CSV file: " ++ text);
         LogError (lit "Error in main process: " ++ lit "Error reading CSV file: " ++ text) ])
    /\ AddComment.main w []
       = (Ok tt,
          [ LogOpened (lit "log/add_comment_errors_" ++ now w ++ lit ".log");
            Print (lit "Error in main process: " ++ lit "Error reading CSV file: " ++ text) ])
    /\ log_lines (snd (AddComment.main w [])) = []
    /\ http_requests (snd (UpdateOccupation.main w [])) = []
    /\ http_requests (snd (AddComment.main w [])) = []
    /\ (forall why, csv_file w = Malformed why -> text = why).
Proof.
  intros Hcfg Hcsv.
  rewrite (update_main_loaded w cfg Hcfg), (comment_main_loaded w cfg Hcfg). cbv zeta.
  destruct (read_csv_data_failure w Hcsv) as (text & Hr & Htext).
  exists text. rewrite !Hr. cbn [throw exn_text app].
  repeat split. exact Htext.
Qed.

(** X4 on a world whose table is missing. *)
Lemma dataset_failure_is_fatal_witness :
  exists text,
    @UpdateOccupation.main ascii_runtime world_without_table []
    = (Ok tt,
       [ LogOpened (lit "log/occupation_update_errors_20250101_120000.log");
         Print (lit "Error in main process: " ++ lit "Error reading CSV file: " ++ text);
         LogError (lit "Error in main process: " ++ lit "Error reading CSV file: " ++ text) ]).
Proof.
  destruct (@dataset_failure_is_fatal ascii_runtime world_without_table
              {| jwt_token := lit "Bearer abc"; api_base_url := lit "https://cms.example" |}
              eq_refl (or_introl eq_refl)) as (text & Hu & _).
  exists text. exact Hu.
Defined.

(** X5: on a table with no row both scripts end normally without any HTTP
    request and without any line in the error log; the updater prints its
    completion message, the comment adder prints nothing. *)
Theorem empty_dataset_completes {rt : PyRuntime} (w : world) (cfg : configuration) :
  fst (read_config w []) = Ok cfg ->
  csv_file w = Parsed [] ->
  UpdateOccupation.main w []
  = (Ok tt,
     [ LogOpened (lit "log/occupation_update_errors_" ++ now w ++ lit ".log");
       Print (lit "Process completed. Log file for errors: "
              ++ lit "log/occupation_update_errors_" ++ now w ++ lit ".log") ])
  /\ AddComment.main w []
     = (Ok tt, [ LogOpened (lit "log/add_comment_errors_" ++ now w ++ lit ".log") ]).
Proof.
  intros Hcfg Hcsv.
  rewrite (update_main_loaded w cfg Hcfg), (comment_main_loaded w cfg Hcfg). cbv zeta.
  rewrite !(read_csv_data_parsed w [] _ Hcsv). split; reflexivity.
Qed.

(** X5 on the example configuration with an empty table. *)
Lemma empty_dataset_completes_witness :
  @AddComment.main ascii_runtime (example_world [] failing_answers) []
  = (Ok tt, [ LogOpened (lit "log/add_comment_errors_20250101_120000.log") ]).
Proof.
  exact (proj2 (@empty_dataset_completes ascii_runtime (example_world [] failing_answers)
                  {| jwt_token := lit "Bearer abc"; api_base_url := lit "https://cms.example" |}
                  eq_refl eq_refl)).
Defined.

(** ** The top-level handler *)

(** A [try] whose only clause is [except Exception] and whose handler
    returns lets nothing out. *)
Lemma try_except_all_returns {A : Type} (body : M A) (handler : exn -> M A)
    (w : world) (tr : list event) :
  (forall e w' tr', exists a, fst (handler e w' tr') = Ok a) ->
  exists a, fst (try_except body [ (Exception_, handler) ] w tr) = Ok a.
Proof.
  intros Hh. unfold try_except.
  destruct (body w tr) as [[a|e] tr']; cbn [find catches fst snd]; eauto.
Qed.

(** X6: [main] of either script never lets an exception out: whatever the
    files hold, whatever the cells of the table are and whatever the server
    answers, it returns normally. *)
Theorem main_always_returns {rt : PyRuntime} (w : world) (tr : list event) :
  fst (UpdateOccupation.main w tr) = Ok tt /\ fst (AddComment.main w tr) = Ok tt.
Proof.
  split.
  - destruct (try_except_all_returns
                (log_filename <- UpdateOccupation.setup_logging ;;
                 config <- read_config ;;
                 df <- read_csv_data ;;
                 for_each df (UpdateOccupation.process_row (jwt_token config)
                                (api_base_url config)) ;;
                 print (lit "Process completed. Log file for errors: " ++ log_filename))
                (fun e => UpdateOccupation.log_error (lit "Error in main process: " ++ exn_text e))
                w tr (fun _ _ _ => ex_intro _ tt eq_refl)) as [[] H].
    exact H.
  - destruct (try_except_all_returns
                (AddComment.setup_logging ;;
                 config <- read_config ;;
                 df <- read_csv_data ;;
                 for_each df (AddComment.process_row (jwt_token config)
                                (api_base_url config)))
                (fun e => print (lit "Error in main process: " ++ exn_text e))
                w tr (fun _ _ _ => ex_intro _ tt eq_refl)) as [[] H].
    exact H.
Qed.

(** ** The test of success on any JSON value *)

Lemma existsb_code (l : list pyval) :
  existsb (fun v => py_eq_str v (lit "code")) l = true <-> In (PStr (lit "code")) l.
Proof.
  rewrite existsb_exists. split.
  - intros (v & Hin & Hv). apply py_eq_str_true in Hv. now subst.
  - intros Hin. exists (PStr (lit "code")). split; [exact Hin|]. now apply py_eq_str_true.
Qed.

(** X7: the test [result and ('code' in result and result['code'] == '0')]
    raises exactly on [True], on a number other than zero, on a string in
    which "code" occurs and on a list with the element "code"; what it
    raises is always a [TypeError].  On every other value ([None], [False],
    zero, other strings and lists, every object) it gives a verdict. *)
Theorem success_test_raises_iff (v : pyval) :
  ((exists e, result_is_success v = Raise e)
   <-> v = PBool true
       \/ (exists z, v = PInt z /\ z <> 0%Z)
       \/ (exists f, v = PFloat f /\ forall sign, f <> S754_zero sign)
       \/ (exists s, v = PStr s /\ str_contains (lit "code") s = true)
       \/ (exists l, v = PList l /\ In (PStr (lit "code")) l))
  /\ (forall e, result_is_success v = Raise e -> exn_cls e = TypeError).
Proof.
  destruct v as [| b | z | f | s | l | d].
  - split; [split|]; try discriminate.
    + intros [e H]. discriminate.
    + intros [H|[(z & H & _)|[(f & H & _)|[(s & H & _)|(l & H & _)]]]]; discriminate.
  - destruct b; (split; [split|]).
    + intros _. now left.
    + intros _. eexists. reflexivity.
    + intros e H. injection H as <-. reflexivity.
    + intros [e H]. discriminate.
    + intros [H|[(z & H & _)|[(f & H & _)|[(s & H & _)|(l & H & _)]]]]; discriminate.
    + discriminate.
  - unfold result_is_success. cbn [py_truthy].
    destruct (Z.eqb_spec z 0) as [->|Hz]; cbn [negb]; (split; [split|]).
    + intros [e H]. discriminate.
    + intros [H|[(z & H & Hz)|[(f & H & _)|[(s & H & _)|(l & H & _)]]]]; try discriminate.
      injection H as <-. congruence.
    + discriminate.
    + intros _. right. left. eauto.
    + intros _. eexists. reflexivity.
    + intros e H. injection H as <-. reflexivity.
  - unfold result_is_success.
    destruct f as [sg|sg| |sg m ex]; cbn [py_truthy]; (split; [split|]);
      try (intros _; right; right; left; eexists; split; [reflexivity|discriminate]);
      try (intros _; eexists; reflexivity);
      try (intros e H; injection H as <-; reflexivity);
      try discriminate.
    + intros [e H]. discriminate.
    + intros [H|[(z & H & _)|[(f & H & Hf)|[(s & H & _)|(l & H & _)]]]]; try discriminate.
      injection H as <-. exfalso. now apply (Hf sg).
  - unfold result_is_success. cbn [py_contains py_getitem].
    destruct (str_contains (lit "code") s) eqn:Hc.
    + assert (Hs : py_truthy (PStr s) = true).
      { cbn. destruct s; [discriminate|reflexivity]. }
      rewrite Hs. split; [split|].
      * intros _. right. right. right. left. eauto.
      * intros _. eexists. reflexivity.
      * intros e H. injection H as <-. reflexivity.
    + split; [split|].
      * intros [e H]. destruct (py_truthy (PStr s)); discriminate.
      * intros [H|[(z & H & _)|[(f & H & _)|[(s' & H & Hs')|(l & H & _)]]]]; try discriminate.
        injection H as <-. congruence.
      * intros e H. destruct (py_truthy (PStr s)); discriminate.
  - unfold result_is_success. cbn [py_contains py_getitem].
    destruct (existsb (fun v => py_eq_str v (lit "code")) l) eqn:Hc.
    + assert (Hl : py_truthy (PList l) = true).
      { cbn. destruct l; [discriminate|reflexivity]. }
      rewrite Hl. split; [split|].
      * intros _. right. right. right. right. exists l. split; [reflexivity|].
        now apply existsb_code.
      * intros _. eexists. reflexivity.
      * intros e H. injection H as <-. reflexivity.
    + split; [split|].
      * intros [e H]. destruct (py_truthy (PList l)); discriminate.
      * intros [H|[(z & H & _)|[(f & H & _)|[(s' & H & _)|(l' & H & Hl')]]]]; try discriminate.
        injection H as <-. apply existsb_code in Hl'. congruence.
      * intros e H. destruct (py_truthy (PList l)); discriminate.
  - rewrite result_is_success_dict. split; [split|].
    + intros [e H]. discriminate.
    + intros [H|[(z & H & _)|[(f & H & _)|[(s & H & _)|(l & H & _)]]]]; discriminate.
    + discriminate.
Qed.

(** ** What a failed row leaves in the log *)

(** X8: for a JSON object the line written to the error log is "Failed to
    update occupation for applicant {id}" followed, when the object has a
    [code] other than "0", by " - Error code: {code}, Description: {desc},
    Data: {data}", where a missing [desc] reads "Unknown error" and a
    missing [data] reads "Unknown data"; an object without [code] gets no
    detail at all, even when it has a [desc] or a [data]. *)
Theorem failure_line_details {rt : PyRuntime}
    (jwt base : pystr) (r : row) (w : world) (tr : list event)
    (resp : response) (d : list (pystr * pyval)) :
  has_text_key r ->
  server w (length (http_requests tr)) (occupation_request jwt base r) = Responded resp ->
  decoded resp = Json (PDict d) ->
  (forall code,
     assoc (lit "code") d = Some code -> code <> PStr (lit "0") ->
     log_lines (snd (UpdateOccupation.process_row jwt base r w tr))
     = log_lines tr
       ++ [ (lit "Failed to update occupation for applicant " ++ py_str (applican_id r))
            ++ lit " - Error code: " ++ py_str code
            ++ lit ", Description: "
            ++ match assoc (lit "desc") d with
               | Some desc => py_str desc
               | None => lit "Unknown error"
               end
            ++ lit ", Data: "
            ++ match assoc (lit "data") d with
               | Some data => py_str data
               | None => lit "Unknown data"
               end ])
  /\ (assoc (lit "code") d = None ->
      log_lines (snd (UpdateOccupation.process_row jwt base r w tr))
      = log_lines tr
        ++ [ lit "Failed to update occupation for applicant " ++ py_str (applican_id r) ]).
Proof.
  intros [key Hk] Hs Hd. split.
  - intros code Hc Hne.
    rewrite (process_row_responded jwt base r key w tr Hk resp Hs), Hd. cbv zeta.
    rewrite result_is_success_other_code by congruence.
    cbn [snd]. rewrite log_lines_app. cbn [log_lines flat_map app].
    rewrite log_lines_app. cbn [log_lines flat_map app]. rewrite app_nil_r.
    unfold error_details, dict_get. rewrite Hc.
    destruct (py_eq_str code (lit "0")) eqn:E;
      [apply py_eq_str_true in E; congruence|].
    cbn [negb].
    destruct (assoc (lit "desc") d), (assoc (lit "data") d);
      rewrite ?py_str_text; reflexivity.
  - intros Hc.
    rewrite (process_row_responded jwt base r key w tr Hk resp Hs), Hd. cbv zeta.
    rewrite result_is_success_other_code by congruence.
    cbn [snd]. rewrite log_lines_app. cbn [log_lines flat_map app].
    rewrite log_lines_app. cbn [log_lines flat_map app]. rewrite app_nil_r.
    unfold error_details. rewrite Hc. now rewrite app_nil_r.
Qed.

(** X8 on the third example row, answered with code "5" and the
    description "invalid key". *)
Lemma failure_line_details_witness :
  log_lines
    (snd (@UpdateOccupation.process_row ascii_runtime (lit "Bearer abc")
            (lit "https://cms.example") example_row
            (example_world [example_row] (fun _ => failing_answers 2)) []))
  = [ lit "Failed to update occupation for applicant A1 - Error code: 5, Description: invalid key, Data: Unknown data" ].
Proof.
  refine (proj1 (@failure_line_details ascii_runtime (lit "Bearer abc")
                   (lit "https://cms.example") example_row
                   (example_world [example_row] (fun _ => failing_answers 2)) []
                   _ [ (lit "code", PStr (lit "5")); (lit "desc", PStr (lit "invalid key")) ]
                   (ex_intro _ (lit "7") eq_refl) eq_refl eq_refl)
                (PStr (lit "5")) eq_refl _).
  discriminate.
Defined.

(** X9: when the body of the answer is not JSON, [update_occupation]
    returns an object holding the HTTP status and the raw text of the body,
    but neither reaches the console or the error log: the row prints and
    logs "Failed to update occupation for applicant {id}" and nothing else
    about the answer. *)
Theorem not_json_answer_is_not_reported {rt : PyRuntime}
    (jwt base : pystr) (r : row) (key : pystr) (w : world) (tr : list event)
    (resp : response) (why : pystr) :
  expected_occupation_key r = PStr key ->
  server w (length (http_requests tr)) (occupation_request jwt base r) = Responded resp ->
  decoded resp = NotJson why ->
  fst (UpdateOccupation.update_occupation (applican_id r)
         (req_json (occupation_request jwt base r)) jwt base w tr)
  = Ok (PDict [ (lit "success", PBool false);
                (lit "error_code", PInt (status_code resp));
                (lit "error_message", PStr (text resp)) ])
  /\ UpdateOccupation.process_row jwt base r w tr
     = (Ok tt,
        tr ++ [ Print (py_str (UpdateOccupation.data r (PStr (pad_occupation_key key))));
                Http (occupation_request jwt base r);
                Print (lit "Failed to update occupation for applicant "
                       ++ py_str (applican_id r));
                LogError (lit "Failed to update occupation for applicant "
                          ++ py_str (applican_id r)) ]).
Proof.
  intros Hk Hs Hd. split.
  - rewrite update_occupation_outcome. cbv zeta.
    unfold occupation_request in Hs |- *. cbn [req_json]. now rewrite Hs, Hd.
  - rewrite (process_row_responded jwt base r key w tr Hk resp Hs), Hd. cbv zeta.
    unfold UpdateOccupation.not_json_result at 1.
    rewrite result_is_success_other_code by discriminate.
    unfold UpdateOccupation.not_json_result, error_details.
    cbn [assoc find fst snd].
    replace (pystr_eqb (lit "success") (lit "code")) with false by reflexivity.
    replace (pystr_eqb (lit "error_code") (lit "code")) with false by reflexivity.
    replace (pystr_eqb (lit "error_message") (lit "code")) with false by reflexivity.
    rewrite app_nil_r, <- app_assoc. reflexivity.
Qed.

(** X9 on the example row answered 502 with an HTML page. *)
Lemma not_json_answer_is_not_reported_witness :
  log_lines
    (snd (@UpdateOccupation.process_row ascii_runtime (lit "Bearer abc")
            (lit "https://cms.example") example_row
            (example_world [example_row] (fun _ => failing_answers 1)) []))
  = [ lit "Failed to update occupation for applicant A1" ].
Proof.
  exact (f_equal (fun out => log_lines (snd out))
           (proj2 (@not_json_answer_is_not_reported ascii_runtime (lit "Bearer abc")
                     (lit "https://cms.example") example_row (lit "7")
                     (example_world [example_row] (fun _ => failing_answers 1)) []
                     _ (lit "Expecting value: line 1 column 1 (char 0)")
                     eq_refl eq_refl eq_refl))).
Defined.

(** ** What the normalisation keeps *)

Lemma forallb_repeat_zero {rt : PyRuntime} (n : nat) :
  forallb chr_isdigit (repeat zero_char n) = true.
Proof.
  induction n as [|n IH]; [reflexivity|]. cbn [repeat forallb].
  rewrite IH, chr_isdigit_ascii by reflexivity. reflexivity.
Qed.

(** X10: the normalisation only ever adds the character '0' on the left:
    the key it returns is the key it was given after as many zeros as the
    length grew, it is never shorter than the input nor longer than 3
    unless the input was, and a key made of digits stays made of digits. *)
Theorem pad_adds_only_zeros {rt : PyRuntime} (s : pystr) :
  pad_occupation_key s
  = repeat zero_char (length (pad_occupation_key s) - length s) ++ s
  /\ length s <= length (pad_occupation_key s) <= Nat.max 3 (length s)
  /\ (str_isdigit s = true -> str_isdigit (pad_occupation_key s) = true).
Proof.
  destruct (str_isdigit s && (length s <? 3)) eqn:Hc.
  - apply andb_true_iff in Hc. destruct Hc as [Hd Hl]. apply Nat.ltb_lt in Hl.
    rewrite (pad_short_digits s Hd Hl).
    rewrite length_app, repeat_length.
    replace (3 - length s + length s - length s) with (3 - length s) by lia.
    split; [reflexivity|]. split; [lia|].
    intros _. unfold str_isdigit in *. apply andb_true_iff in Hd. destruct Hd as [Hn Hall].
    rewrite length_app, repeat_length, forallb_app, forallb_repeat_zero, Hall.
    destruct (3 - length s + length s) eqn:E; [lia|reflexivity].
  - assert (E : pad_occupation_key s = s)
      by (unfold pad_occupation_key; now rewrite Hc).
    rewrite E, Nat.sub_diag. cbn [repeat app]. repeat split; auto; lia.
Qed.

(** ** Where a run stops *)

Lemma for_each_app {A : Type} (pre rest : list A) (body : A -> M unit)
    (w : world) (tr tr1 : list event) :
  for_each pre body w tr = (Ok tt, tr1) ->
  for_each (pre ++ rest) body w tr = for_each rest body w tr1.
Proof.
  revert tr. induction pre as [|x pre IH]; intros tr H; cbn [for_each app] in *.
  - unfold ret in H. now injection H as <-.
  - unfold bind in *. destruct (body x w tr) as [[[]|e] tr']; [|discriminate].
    now apply IH.
Qed.

Lemma for_each_raise {A : Type} (x : A) (rest : list A) (body : A -> M unit)
    (w : world) (tr tr' : list event) (e : exn) :
  body x w tr = (Raise e, tr') ->
  for_each (x :: rest) body w tr = (Raise e, tr').
Proof. intros H. cbn [for_each]. unfold bind. now rewrite H. Qed.

Section Stops.
Context {rt : PyRuntime}.
Import UpdateOccupation.

Variables (jwt base : pystr) (w : world).

(** The rows are processed as long as they hold text and are answered as
    the updater expects. *)
Lemma for_each_row_upto (rows : list row) (tr : list event) :
  Forall has_text_key rows ->
  (forall i req, i < length rows ->
                 per_row_outcome (server w (length (http_requests tr) + i) req)) ->
  for_each rows (process_row jwt base) w tr
  = (Ok tt, tr ++ rows_alone jwt base w (length (http_requests tr)) rows).
Proof.
  intros Hrows. revert tr.
  induction Hrows as [|r rows Hr _ IH]; intros tr Hsrv.
  - cbn. now rewrite app_nil_r.
  - cbn [for_each rows_alone]. unfold bind at 1.
    rewrite (process_row_frame jwt base r w tr Hr).
    assert (H0 : per_row_outcome
                   (server w (length (http_requests tr)) (occupation_request jwt base r))).
    { specialize (Hsrv 0 (occupation_request jwt base r)).
      rewrite Nat.add_0_r in Hsrv. apply Hsrv. cbn. lia. }
    rewrite (row_run_completes jwt base w r _ Hr H0).
    rewrite IH.
    + rewrite http_requests_app, length_app, (row_alone_requests jwt base w r _ Hr).
      cbn [length]. rewrite Nat.add_1_r, <- app_assoc. reflexivity.
    + intros i req Hi.
      rewrite http_requests_app, length_app, (row_alone_requests jwt base w r _ Hr).
      cbn [length]. replace (length (http_requests tr) + 1 + i)
        with (length (http_requests tr) + S i) by lia.
      apply Hsrv. cbn. lia.
Qed.

Lemma rows_alone_length (rows : list row) (n : nat) :
  Forall has_text_key rows ->
  length (http_requests (rows_alone jwt base w n rows)) = length rows.
Proof.
  intros H. now rewrite (rows_alone_requests jwt base w rows n H), length_map.
Qed.

(** A cell that is not text has no [isdigit]: the row raises before any
    request. *)
Lemma process_row_without_text (r : row) (tr : list event) :
  (forall key, expected_occupation_key r <> PStr key) ->
  process_row jwt base r w tr
  = (throw AttributeError
       (lit "'" ++ type_name (expected_occupation_key r)
        ++ lit "' object has no attribute 'isdigit'"),
     tr).
Proof.
  intros Hk. unfold process_row, occupation_value, bind, lift.
  destruct (expected_occupation_key r); try reflexivity.
  exfalso. now apply (Hk s).
Qed.
End Stops.

(** X11: a cell of the occupation column that is not text (an empty cell)
    stops the run at its row: the rows before it are processed, the row
    itself and every row after it get no HTTP request, and the run ends
    with the error "Error in main process: '<type>' object has no attribute
    'isdigit'" on the console and in the error log. *)
Theorem run_stops_at_missing_key {rt : PyRuntime}
    (w : world) (cfg : configuration) (pre post : list row) (r : row) :
  fst (read_config w []) = Ok cfg ->
  csv_file w = Parsed (pre ++ r :: post) ->
  Forall has_text_key pre ->
  (forall i req, i < length pre -> per_row_outcome (server w i req)) ->
  (forall key, expected_occupation_key r <> PStr key) ->
  UpdateOccupation.main w []
  = (Ok tt,
     [ LogOpened (lit "log/occupation_update_errors_" ++ now w ++ lit ".log") ]
     ++ rows_alone (jwt_token cfg) (api_base_url cfg) w 0 pre
     ++ [ Print (lit "Error in main process: "
                 ++ lit "'" ++ type_name (expected_occupation_key r)
                 ++ lit "' object has no attribute 'isdigit'");
          LogError (lit "Error in main process: "
                    ++ lit "'" ++ type_name (expected_occupation_key r)
                    ++ lit "' object has no attribute 'isdigit'") ])
  /\ http_requests (snd (UpdateOccupation.main w []))
     = map (occupation_request (jwt_token cfg) (api_base_url cfg)) pre.
Proof.
  intros Hcfg Hcsv Hpre Hsrv Hr.
  assert (Hmain : UpdateOccupation.main w []
    = (Ok tt,
       [ LogOpened (lit "log/occupation_update_errors_" ++ now w ++ lit ".log") ]
       ++ rows_alone (jwt_token cfg) (api_base_url cfg) w 0 pre
       ++ [ Print (lit "Error in main process: "
                   ++ lit "'" ++ type_name (expected_occupation_key r)
                   ++ lit "' object has no attribute 'isdigit'");
            LogError (lit "Error in main process: "
                      ++ lit "'" ++ type_name (expected_occupation_key r)
                      ++ lit "' object has no attribute 'isdigit'") ])).
  { rewrite (update_main_loaded w cfg Hcfg). cbv zeta.
    rewrite (read_csv_data_parsed w _ _ Hcsv).
    rewrite (for_each_app pre (r :: post) _ w _ _
               (for_each_row_upto (jwt_token cfg) (api_base_url cfg) w pre
                  [ LogOpened (lit "log/occupation_update_errors_" ++ now w ++ lit ".log") ]
                  Hpre Hsrv)).
    rewrite (for_each_raise r post _ w _ _ _
               (process_row_without_text (jwt_token cfg) (api_base_url cfg) w r _ Hr)).
    cbn [throw exn_text http_requests flat_map length app].
    reflexivity. }
  split; [exact Hmain|].
  rewrite Hmain. cbn [snd]. rewrite !http_requests_app.
  rewrite (rows_alone_requests _ _ w pre 0 Hpre). cbn. now rewrite app_nil_r.
Qed.

(** X11 on a table whose second row has an empty occupation cell: only the
    first row is sent. *)
Lemma run_stops_at_missing_key_witness :
  http_requests
    (snd (@UpdateOccupation.main ascii_runtime
            (example_world [example_row; row_with_empty_key; example_row] failing_answers) []))
  = [ @occupation_request ascii_runtime (lit "Bearer abc") (lit "https://cms.example")
        example_row ].
Proof.
  refine (proj2 (@run_stops_at_missing_key ascii_runtime
                   (example_world [example_row; row_with_empty_key; example_row]
                      failing_answers)
                   {| jwt_token := lit "Bearer abc"; api_base_url := lit "https://cms.example" |}
                   [example_row] [example_row] row_with_empty_key
                   eq_refl eq_refl _ _ _)).
  - repeat constructor. eexists; reflexivity.
  - intros [|i] req Hi; [exact I|]. cbn in Hi. lia.
  - intros key. discriminate.
Defined.

(** X12: an answer whose JSON body makes the test of success raise (a
    number, [true], a string or a list holding "code") stops the run at its
    row: the request of that row has been sent, the row is reported neither
    as a success nor as a failure, no later row gets a request, and the run
    ends with "Error in main process: ..." on the console and in the log. *)
Theorem run_stops_at_unexpected_json {rt : PyRuntime}
    (w : world) (cfg : configuration) (pre post : list row) (r : row)
    (resp : response) (v : pyval) (e : exn) :
  fst (read_config w []) = Ok cfg ->
  csv_file w = Parsed (pre ++ r :: post) ->
  Forall has_text_key pre ->
  has_text_key r ->
  (forall i req, i < length pre -> per_row_outcome (server w i req)) ->
  server w (length pre) (occupation_request (jwt_token cfg) (api_base_url cfg) r)
  = Responded resp ->
  decoded resp = Json v ->
  result_is_success v = Raise e ->
  UpdateOccupation.main w []
  = (Ok tt,
     [ LogOpened (lit "log/occupation_update_errors_" ++ now w ++ lit ".log") ]
     ++ rows_alone (jwt_token cfg) (api_base_url cfg) w 0 pre
     ++ [ Print (py_str (req_json (occupation_request (jwt_token cfg) (api_base_url cfg) r)));
          Http (occupation_request (jwt_token cfg) (api_base_url cfg) r);
          Print (lit "Error in main process: " ++ exn_text e);
          LogError (lit "Error in main process: " ++ exn_text e) ])
  /\ http_requests (snd (UpdateOccupation.main w []))
     = map (occupation_request (jwt_token cfg) (api_base_url cfg)) (pre ++ [r]).
Proof.
  intros Hcfg Hcsv Hpre [key Hk] Hsrv Hs Hd Hv.
  set (opened := [ LogOpened (lit "log/occupation_update_errors_" ++ now w ++ lit ".log") ]).
  set (jwt := jwt_token cfg) in *. set (base := api_base_url cfg) in *.
  assert (Hlen : length (http_requests (opened ++ rows_alone jwt base w 0 pre)) = length pre).
  { rewrite http_requests_app, length_app. cbn [opened http_requests flat_map length app].
    apply (rows_alone_length jwt base w pre 0 Hpre). }
  assert (Hrow : UpdateOccupation.process_row jwt base r w (opened ++ rows_alone jwt base w 0 pre)
                 = (Raise e,
                    (opened ++ rows_alone jwt base w 0 pre)
                    ++ [ Print (py_str (req_json (occupation_request jwt base r)));
                         Http (occupation_request jwt base r) ])).
  { rewrite <- Hlen in Hs.
    rewrite (process_row_responded jwt base r key w _ Hk resp Hs), Hd. cbv zeta.
    rewrite Hv. rewrite (occupation_request_text jwt base r key Hk). reflexivity. }
  assert (Hmain : UpdateOccupation.main w []
    = (Ok tt,
       opened ++ rows_alone jwt base w 0 pre
       ++ [ Print (py_str (req_json (occupation_request jwt base r)));
            Http (occupation_request jwt base r);
            Print (lit "Error in main process: " ++ exn_text e);
            LogError (lit "Error in main process: " ++ exn_text e) ])).
  { rewrite (update_main_loaded w cfg Hcfg). cbv zeta. fold opened jwt base.
    rewrite (read_csv_data_parsed w _ _ Hcsv).
    rewrite (for_each_app pre (r :: post) _ w _ _
               (for_each_row_upto jwt base w pre opened Hpre Hsrv)).
    cbn [opened http_requests flat_map length app].
    change (LogOpened ?f :: ?t) with (opened ++ t).
    rewrite (for_each_raise r post _ w _ _ _ Hrow).
    rewrite <- !app_assoc. reflexivity. }
  split; [exact Hmain|].
  rewrite Hmain. cbn [snd]. rewrite !http_requests_app, map_app.
  rewrite (rows_alone_requests jwt base w pre 0 Hpre). reflexivity.
Qed.

(** X12 on two rows, the first answered with the JSON number 5: the second
    row is never sent. *)
Lemma run_stops_at_unexpected_json_witness :
  http_requests
    (snd (@UpdateOccupation.main ascii_runtime
            (example_world [example_row; example_row] (fun _ => Responded number_response))
            []))
  = [ @occupation_request ascii_runtime (lit "Bearer abc") (lit "https://cms.example")
        example_row ].
Proof.
  refine (proj2 (@run_stops_at_unexpected_json ascii_runtime
                   (example_world [example_row; example_row]
                      (fun _ => Responded number_response))
                   {| jwt_token := lit "Bearer abc"; api_base_url := lit "https://cms.example" |}
                   [] [example_row] example_row number_response (PInt 5)
                   {| exn_cls := TypeError;
                      exn_text := lit "argument of type 'int' is not iterable" |}
                   eq_refl eq_refl (Forall_nil _) (ex_intro _ (lit "7") eq_refl) _
                   eq_refl eq_refl eq_refl)).
  intros i req Hi. cbn in Hi. lia.
Defined.

(** ** The requests of the comment adder *)

Section CommentRequests.
Context {rt : PyRuntime}.
Import AddComment.

Variables (jwt base : pystr) (r : row) (w : world) (tr : list event).

Lemma add_comment_not_json (resp : response) (why : pystr) :
  server w (length (http_requests tr)) (comment_request jwt base r) = Responded resp ->
  raises_for_status (status_code resp) = false ->
  decoded resp = NotJson why ->
  add_comment (applican_id r) (institution r) comment_data jwt base w tr
  = (Ok PNone,
     tr ++ [ Http (comment_request jwt base r);
             Print (lit "Error adding comment for applicant " ++ py_str (applican_id r)
                    ++ lit ", institution " ++ py_str (institution r) ++ lit ": " ++ why) ]).
Proof.
  intros Hs Hst Hd.
  destruct (raise_for_status_cases resp) as [(Ht & _)|(_ & Hr)]; [congruence|].
  unfold add_comment, requests_send, try_except, bind, ret, lift, print, emit.
  fold (comment_request jwt base r). rewrite Hs, Hr.
  unfold response_json. rewrite Hd. cbn. now rewrite <- app_assoc.
Qed.

(** [add_comment] always returns, having sent its request once. *)
Lemma add_comment_sends :
  exists v evs,
    add_comment (applican_id r) (institution r) comment_data jwt base w tr
    = (Ok v, tr ++ Http (comment_request jwt base r) :: evs)
    /\ http_requests evs = [].
Proof.
  destruct (server w (length (http_requests tr)) (comment_request jwt base r))
    as [resp|why] eqn:Hs.
  - destruct (raises_for_status (status_code resp)) eqn:Hst.
    + destruct (add_comment_refused jwt base r w tr resp Hs Hst) as [text Ha].
      rewrite Ha. eexists _, [_]. split; reflexivity.
    + destruct (decoded resp) as [v|why] eqn:Hd.
      * rewrite (add_comment_json jwt base r w tr resp v Hs Hst Hd).
        exists v, []. split; reflexivity.
      * rewrite (add_comment_not_json resp why Hs Hst Hd).
        eexists _, [_]. split; reflexivity.
  - rewrite (add_comment_transport jwt base r w tr why Hs).
    eexists _, [_]. split; reflexivity.
Qed.

Lemma comment_row_requests :
  http_requests (snd (process_row jwt base r w tr))
  = http_requests tr ++ [comment_request jwt base r].
Proof.
  rewrite comment_row_unfold.
  destruct add_comment_sends as (v & evs & -> & Hevs).
  destruct (result_is_success v) as [[|]|e]; cbn [snd];
    rewrite ?http_requests_app; cbn [http_requests flat_map app];
    fold (http_requests evs); rewrite Hevs; cbn [app]; now rewrite ?app_nil_r.
Qed.
End CommentRequests.

(** X13: for every row, whatever the server answers, the comment adder
    sends exactly one HTTP POST, to
    [{base_url}/cms/v2/applicants/{applicant_id}/institutions/{institution}/comment],
    with the headers [Authorization: {jwt_token}] and [Content-Type:
    application/json] and a body whose only field is [comment], the same
    two lines of text for every row. *)
Theorem comment_request_construction {rt : PyRuntime}
    (jwt base : pystr) (r : row) (w : world) (tr : list event) :
  http_requests (snd (AddComment.process_row jwt base r w tr))
  = http_requests tr
    ++ [ {| req_method := POST;
            req_url := base ++ lit "/cms/v2/applicants/" ++ py_str (applican_id r)
                       ++ lit "/institutions/" ++ py_str (institution r) ++ lit "/comment";
            req_headers := [ (lit "Authorization", jwt);
                             (lit "Content-Type", lit "application/json") ];
            req_json :=
              PDict [ (lit "comment",
                       PStr (lit "- Change occupation CMS note: Occupation updated due to data segregation issue from 2.0 to 3.0."
                             ++ [10%N]
                             ++ lit "- Change criminal subjected CMS note: Criminal subjected updated as user is from 2.0.")) ] |} ].
Proof.
  rewrite comment_row_requests.
  unfold comment_request, AddComment.COMMENT_API_ENDPOINT, headers, AddComment.comment_data.
  reflexivity.
Qed.

Lemma printed_app (a b : list event) : printed (a ++ b) = printed a ++ printed b.
Proof. apply flat_map_app. Qed.

Section CommentLoop.
Context {rt : PyRuntime}.
Import AddComment.

Variables (jwt base : pystr) (w : world).

Let not_fatal (evs : list event) : Prop :=
  Forall (fun t => starts_with (lit "Error in main process") t = false) (printed evs).

(** Under the answers followed here a row of the comment adder ends as a
    success or as a failure, after one request. *)
Lemma comment_row_completes (r : row) (tr : list event) :
  comment_outcome (server w (length (http_requests tr)) (comment_request jwt base r)) ->
  exists evs,
    process_row jwt base r w tr = (Ok tt, tr ++ evs)
    /\ http_requests evs = [comment_request jwt base r]
    /\ not_fatal evs.
Proof.
  intros Ho. unfold not_fatal.
  destruct (server w (length (http_requests tr)) (comment_request jwt base r))
    as [resp|why] eqn:Hs.
  - destruct (raises_for_status (status_code resp)) eqn:Hst.
    + destruct (add_comment_refused jwt base r w tr resp Hs Hst) as [text Ha].
      rewrite (comment_row_null jwt base r w tr text Ha).
      eexists. split; [reflexivity|]. split; [reflexivity|].
      repeat constructor.
    + destruct Ho as [Ho|[d Hd]]; [congruence|].
      rewrite comment_row_unfold, (add_comment_json jwt base r w tr resp _ Hs Hst Hd).
      rewrite result_is_success_dict.
      destruct (match assoc (lit "code") d with
                | Some code => py_eq_str code (lit "0")
                | None => false
                end); rewrite <- app_assoc;
        (eexists; split; [reflexivity|]; split; [reflexivity|]; repeat constructor).
  - rewrite (comment_row_null jwt base r w tr why
               (add_comment_transport jwt base r w tr why Hs)).
    eexists. split; [reflexivity|]. split; [reflexivity|].
    repeat constructor.
Qed.

Lemma comment_for_each (rows : list row) (tr : list event) :
  (forall n req, comment_outcome (server w n req)) ->
  exists evs,
    for_each rows (process_row jwt base) w tr = (Ok tt, tr ++ evs)
    /\ http_requests evs = map (comment_request jwt base) rows
    /\ not_fatal evs.
Proof.
  intros Hsrv. revert tr. induction rows as [|r rows IH]; intros tr.
  - exists []. cbn. rewrite app_nil_r. repeat split. constructor.
  - destruct (comment_row_completes r tr (Hsrv _ _)) as (evs1 & H1 & Hq1 & Hp1).
    destruct (IH (tr ++ evs1)) as (evs2 & H2 & Hq2 & Hp2).
    exists (evs1 ++ evs2). cbn [for_each]. unfold bind. rewrite H1, H2.
    rewrite <- app_assoc. split; [reflexivity|]. split.
    + rewrite http_requests_app, Hq1, Hq2. reflexivity.
    + unfold not_fatal in *. rewrite printed_app. apply Forall_app. now split.
Qed.
End CommentLoop.

(** X14: when every answer is a transport error, a 4xx or 5xx status or a
    JSON object, the comment adder goes through every row: it sends exactly
    one request per row, in the order of the rows, and nothing it prints is
    the fatal "Error in main process" message. *)
Theorem comment_rows_all_processed {rt : PyRuntime}
    (w : world) (cfg : configuration) (rows : list row) :
  fst (read_config w []) = Ok cfg ->
  csv_file w = Parsed rows ->
  (forall n req, comment_outcome (server w n req)) ->
  http_requests (snd (AddComment.main w []))
  = map (comment_request (jwt_token cfg) (api_base_url cfg)) rows
  /\ Forall (fun t => starts_with (lit "Error in main process") t = false)
       (printed (snd (AddComment.main w []))).
Proof.
  intros Hcfg Hcsv Hsrv.
  rewrite (comment_main_loaded w cfg Hcfg). cbv zeta.
  rewrite (read_csv_data_parsed w _ _ Hcsv).
  destruct (comment_for_each (jwt_token cfg) (api_base_url cfg) w rows
              [ LogOpened (lit "log/add_comment_errors_" ++ now w ++ lit ".log") ] Hsrv)
    as (evs & -> & Hq & Hp).
  cbn [snd]. rewrite http_requests_app, printed_app. cbn [http_requests printed flat_map app].
  split; [exact Hq|exact Hp].
Qed.

(** X14 on the three example rows and their three failing answers. *)
Lemma comment_rows_all_processed_witness :
  http_requests
    (snd (@AddComment.main ascii_runtime (example_world three_rows failing_answers) []))
  = map (@comment_request ascii_runtime (lit "Bearer abc") (lit "https://cms.example"))
      three_rows.
Proof.
  refine (proj1 (@comment_rows_all_processed ascii_runtime
                   (example_world three_rows failing_answers)
                   {| jwt_token := lit "Bearer abc"; api_base_url := lit "https://cms.example" |}
                   three_rows eq_refl eq_refl _)).
  intros [|[|n]] req; cbn.
  - exact I.
  - left. reflexivity.
  - right. eexists. reflexivity.
Defined.

(** ** The error log of a whole run *)

Section LogOfRun.
Context {rt : PyRuntime}.
Import UpdateOccupation.

Variables (jwt base : pystr) (w : world).

Let names (r : row) (line : pystr) : Prop :=
  starts_with (lit "Failed to update occupation for applicant " ++ py_str (applican_id r)) line
  = true.

Lemma row_alone_log (r : row) (o : http_outcome) :
  has_text_key r -> per_row_outcome o ->
  if answer_succeeds o then log_lines (row_alone jwt base w r o) = []
  else exists line, log_lines (row_alone jwt base w r o) = [line] /\ names r line.
Proof.
  intros [key Hk] Ho. unfold row_alone, row_run, names. destruct o as [resp|why].
  - rewrite (process_row_responded jwt base r key
               (with_server w (fun _ _ => Responded resp)) [] Hk resp eq_refl). cbv zeta.
    unfold per_row_outcome in Ho. unfold answer_succeeds.
    destruct (decoded resp) as [v|why].
    + destruct v; try contradiction. rewrite result_is_success_dict.
      destruct (match assoc (lit "code") d with
                | Some code => py_eq_str code (lit "0")
                | None => false
                end).
      * reflexivity.
      * eexists. split; [reflexivity|]. apply starts_with_app.
    + unfold not_json_result at 1. rewrite result_is_success_other_code by discriminate.
      eexists. split; [reflexivity|]. apply starts_with_app.
  - rewrite (process_row_transport jwt base r key
               (with_server w (fun _ _ => TransportError why)) [] Hk why eq_refl).
    cbn [answer_succeeds]. eexists. split; [reflexivity|].
    rewrite <- (app_nil_r (lit "Failed to update occupation for applicant "
                           ++ py_str (applican_id r))) at 2.
    apply starts_with_app.
Qed.

Lemma rows_alone_log (rows : list row) (n : nat) :
  Forall has_text_key rows ->
  (forall i req, per_row_outcome (server w i req)) ->
  Forall2 names (failed_rows jwt base w n rows)
    (log_lines (rows_alone jwt base w n rows)).
Proof.
  intros Hrows Hsrv. revert n.
  induction Hrows as [|r rows Hr _ IH]; intros n; [constructor|].
  cbn [failed_rows rows_alone]. rewrite log_lines_app.
  pose proof (row_alone_log r (server w n (occupation_request jwt base r)) Hr (Hsrv _ _)) as H.
  destruct (answer_succeeds (server w n (occupation_request jwt base r))).
  - rewrite H. cbn [app]. apply IH.
  - destruct H as (line & -> & Hline). cbn [app]. constructor; [exact Hline|apply IH].
Qed.
End LogOfRun.

(** X15: after a run of the updater whose rows hold text and are answered
    with a transport error, a body that is not JSON or a JSON object, the
    error log holds exactly one line per row that did not succeed, in the
    order of the rows, each starting "Failed to update occupation for
    applicant {id}" with the id of its row; the rows answered with code "0"
    have none, and nothing else is in the log. *)
Theorem error_log_lists_failed_rows {rt : PyRuntime}
    (w : world) (cfg : configuration) (rows : list row) :
  fst (read_config w []) = Ok cfg ->
  csv_file w = Parsed rows ->
  Forall has_text_key rows ->
  (forall n req, per_row_outcome (server w n req)) ->
  Forall2
    (fun r line =>
       starts_with (lit "Failed to update occupation for applicant " ++ py_str (applican_id r))
         line = true)
    (failed_rows (jwt_token cfg) (api_base_url cfg) w 0 rows)
    (log_lines (snd (UpdateOccupation.main w []))).
Proof.
  intros Hcfg Hcsv Hrows Hsrv.
  rewrite (update_main_loaded w cfg Hcfg). cbv zeta.
  rewrite (read_csv_data_parsed w _ _ Hcsv).
  rewrite (for_each_row (jwt_token cfg) (api_base_url cfg) w rows _ Hrows Hsrv).
  cbn [snd]. rewrite !log_lines_app. cbn [log_lines flat_map app http_requests length].
  rewrite app_nil_r.
  exact (rows_alone_log (jwt_token cfg) (api_base_url cfg) w rows 0 Hrows Hsrv).
Qed.

(** X15 on the three example rows, all of which fail: three lines. *)
Lemma error_log_lists_failed_rows_witness :
  Forall2
    (fun r line =>
       starts_with (lit "Failed to update occupation for applicant "
                    ++ @py_str ascii_runtime (applican_id r)) line = true)
    three_rows
    (log_lines
       (snd (@UpdateOccupation.main ascii_runtime
               (example_world three_rows failing_answers) []))).
Proof.
  refine (@error_log_lists_failed_rows ascii_runtime
            (example_world three_rows failing_answers)
            {| jwt_token := lit "Bearer abc"; api_base_url := lit "https://cms.example" |}
            three_rows eq_refl eq_refl _ _).
  - repeat constructor; eexists; reflexivity.
  - intros [|[|n]] req; exact I.
Defined.

(** ** The verdict of the comment adder *)

(** X16: when the server answers, the comment adder classifies the row
    success exactly when the status is neither 4xx nor 5xx and the body is
    a JSON object whose [code] is the string "0". *)
Theorem comment_classification {rt : PyRuntime}
    (jwt base : pystr) (r : row) (w : world) (tr : list event) (resp : response) :
  server w (length (http_requests tr)) (comment_request jwt base r) = Responded resp ->
  (commented r tr (AddComment.process_row jwt base r w tr)
   <-> ~ (400 <= status_code resp < 600)%Z
       /\ exists d, decoded resp = Json (PDict d)
                    /\ assoc (lit "code") d = Some (PStr (lit "0"))).
Proof.
  intros Hs. split.
  - intros Hok. destruct (raises_for_status (status_code resp)) eqn:Hst.
    + exfalso. destruct (add_comment_refused jwt base r w tr resp Hs Hst) as [text Ha].
      rewrite (comment_row_null jwt base r w tr text Ha) in Hok.
      revert Hok. apply logged_success_no_line. discriminate.
    + split.
      { intros Hr. apply raises_for_status_range in Hr. congruence. }
      destruct (decoded resp) as [v|why] eqn:Hd.
      * rewrite comment_row_unfold,
          (add_comment_json jwt base r w tr resp v Hs Hst Hd) in Hok.
        destruct (result_is_success v) as [[|]|e] eqn:Hv.
        -- apply result_is_success_true in Hv. destruct Hv as (d & -> & Hc). eauto.
        -- exfalso. revert Hok. rewrite <- app_assoc.
           apply logged_success_no_line. discriminate.
        -- destruct Hok as [Hok _]. discriminate.
      * exfalso.
        rewrite (comment_row_null jwt base r w tr why
                   (add_comment_not_json jwt base r w tr resp why Hs Hst Hd)) in Hok.
        revert Hok. apply logged_success_no_line. discriminate.
  - intros (Hst & d & Hd & Hc).
    exact (comment_row_accepted jwt base r w tr resp d Hs Hst Hd Hc).
Qed.

(** X16 on the example row answered 200 with [{code: "0"}]. *)
Lemma comment_classification_witness :
  @commented ascii_runtime example_row []
    (@AddComment.process_row ascii_runtime (lit "Bearer abc") (lit "https://cms.example")
       example_row
       (example_world [example_row] (fun _ => Responded (code_zero_response 200 (lit "OK"))))
       []).
Proof.
  apply (proj2 (@comment_classification ascii_runtime (lit "Bearer abc")
                  (lit "https://cms.example") example_row
                  (example_world [example_row]
                     (fun _ => Responded (code_zero_response 200 (lit "OK"))))
                  [] (code_zero_response 200 (lit "OK")) eq_refl)).
  split.
  - cbn. lia.
  - exists [ (lit "code", PStr (lit "0")) ]. split; reflexivity.
Defined.

(** ** What [update_occupation] gives back *)

(** X17: whenever [requests.put] answers or raises a [RequestException],
    [update_occupation] does not raise: it has sent its request once and
    returns the decoded body when the body is JSON (whatever the status),
    [{success: False, error_code: status, error_message: text}] when it is
    not, and [{success: False, error_code: "RequestException",
    error_message: str(e)}] after printing the error on the exception;
    it writes nothing to the error log, and the test of the caller takes
    neither failure object for a success. *)
Theorem update_occupation_results {rt : PyRuntime}
    (applicant_id payload : pyval) (jwt base : pystr) (w : world) (tr : list event) :
  UpdateOccupation.update_occupation applicant_id payload jwt base w tr
  = match server w (length (http_requests tr))
            {| req_method := PUT;
               req_url := base ++ lit "/cms/v2/applicants/" ++ py_str applicant_id
                          ++ lit "/occupation";
               req_headers := [ (lit "Authorization", jwt);
                                (lit "Content-Type", lit "application/json") ];
               req_json := payload |} with
    | Responded resp =>
        (Ok match decoded resp with
            | Json v => v
            | NotJson _ =>
                PDict [ (lit "success", PBool false);
                        (lit "error_code", PInt (status_code resp));
                        (lit "error_message", PStr (text resp)) ]
            end,
         tr ++ [ Http {| req_method := PUT;
                         req_url := base ++ lit "/cms/v2/applicants/" ++ py_str applicant_id
                                    ++ lit "/occupation";
                         req_headers := [ (lit "Authorization", jwt);
                                          (lit "Content-Type", lit "application/json") ];
                         req_json := payload |} ])
    | TransportError why =>
        (Ok (PDict [ (lit "success", PBool false);
                     (lit "error_code", PStr (lit "RequestException"));
                     (lit "error_message", PStr why) ]),
         tr ++ [ Http {| req_method := PUT;
                         req_url := base ++ lit "/cms/v2/applicants/" ++ py_str applicant_id
                                    ++ lit "/occupation";
                         req_headers := [ (lit "Authorization", jwt);
                                          (lit "Content-Type", lit "application/json") ];
                         req_json := payload |};
                 Print (lit "Error updating occupation for applicant " ++ py_str applicant_id
                        ++ lit ": " ++ why) ])
    end
  /\ (forall status body,
        result_is_success (PDict [ (lit "success", PBool false);
                                   (lit "error_code", PInt status);
                                   (lit "error_message", PStr body) ]) = Ok false)
  /\ (forall why,
        result_is_success (PDict [ (lit "success", PBool false);
                                   (lit "error_code", PStr (lit "RequestException"));
                                   (lit "error_message", PStr why) ]) = Ok false).
Proof.
  split; [|split].
  - rewrite update_occupation_outcome. cbv zeta.
    unfold UpdateOccupation.API_ENDPOINT, headers, UpdateOccupation.not_json_result,
      UpdateOccupation.request_exception_result.
    reflexivity.
  - intros status body. now rewrite result_is_success_other_code by discriminate.
  - intros why. now rewrite result_is_success_other_code by discriminate.
Qed.
